(** * Item validation pipeline (spidermon/contrib/scrapy/pipelines.py)

    A shallow embedding of [ItemValidationPipeline]: the construction of the
    validator registry from the crawler settings ([from_crawler] and its
    inner [set_validators]), the registry lookup ([find_validators]), the
    per-item dispatch ([process_item]) and the annotation of an item with
    the errors of a failing validator ([_add_errors_to_item]).

    Python objects that the pipeline mutates in place (the item, the
    statistics collector, the registry under construction) are threaded
    through a state-and-exception monad.  Every call that leaves the
    pipeline (statistics manager, validators, item exporter) is recorded, in
    program order, in a log, so that statements such as "the second
    validator is never invoked" are statements about that log.

    Modelling choices.  Validators, the item exporter and the loaders'
    helpers are external: a validator is a name and a function from the
    converted mapping to [(ok, errors)], the exporter and the helpers are
    section variables.  A dict the code only iterates ([errors]) is the
    list of its items in iteration order; a dict it looks up and updates
    (the registry, [item._values], the messages stored on an item) is a
    [gmap]; where the code iterates such a dict (the registry, in
    [__init__]) the order of [items()] is a parameter, any enumeration of
    the dict's entries.  The errors field is an ordinary key of
    [item._values]: what the item holds there may be the [defaultdict(list)]
    of messages the pipeline stores, or any other value, and line 133 then
    raises as Python does. *)

From Stdlib Require Import String Ascii List Bool Arith Lia.
From stdpp Require Import base option list gmap strings.

Import ListNotations.
Local Open Scope string_scope.
Local Open Scope list_scope.

(** ** Exceptions and the state-and-exception monad *)

Inductive exn : Type :=
| DropItem (msg : string)        (* scrapy.exceptions.DropItem *)
| NotConfigured (msg : string)   (* scrapy.exceptions.NotConfigured *)
| KeyError (key : string)
| TypeError
| AttributeError
| External (what : string).      (* raised inside an external collaborator *)

Inductive outcome (A : Type) : Type :=
| Return (a : A)
| Raise (e : exn).
Arguments Return {A} a.
Arguments Raise {A} e.

Definition M (S A : Type) : Type := S -> outcome A * S.

Definition ret {S A} (a : A) : M S A := fun s => (Return a, s).
Definition raise {S A} (e : exn) : M S A := fun s => (Raise e, s).
Definition bind {S A B} (c : M S A) (k : A -> M S B) : M S B :=
  fun s => match c s with
           | (Return a, s') => k a s'
           | (Raise e, s') => (Raise e, s')
           end.
Definition modify {S} (f : S -> S) : M S unit := fun s => (Return tt, f s).
Definition lift {S A} (o : outcome A) : M S A := fun s => (o, s).

Declare Scope py_scope.
Delimit Scope py_scope with py.
Notation "x <- c1 ;; c2" := (bind c1 (fun x => c2))
  (at level 100, c1 at next level, right associativity) : py_scope.
Notation "c1 ;; c2" := (bind c1 (fun _ => c2))
  (at level 100, right associativity) : py_scope.
Local Open Scope py_scope.

(** [for x in xs: body(x)]: the loop stops at the first exception. *)
Fixpoint for_each {S A} (xs : list A) (body : A -> M S unit) : M S unit :=
  match xs with
  | [] => ret tt
  | x :: xs' => body x ;; for_each xs' body
  end.

(** [[f(x) for x in xs]] *)
Fixpoint comprehension {S A B} (f : A -> M S B) (xs : list A) : M S (list B) :=
  match xs with
  | [] => ret []
  | x :: xs' => y <- f x ;; ys <- comprehension f xs' ;; ret (y :: ys)
  end.

(** [if c: body] *)
Definition when {S} (c : bool) (body : M S unit) : M S unit :=
  if c then body else ret tt.

(** ** Data *)

(** JSON-like Python values: [None], booleans, numbers, strings, lists and
    plain dicts (as their [items()]). *)
#[warnings="-register-all"]
Inductive json : Type :=
| JNull
| JBool (b : bool)
| JNum (n : Z)
| JStr (s : string)
| JArr (l : list json)
| JObj (kv : list (string * json)).

(** The second component of a validator's answer, [errors]: a dict from
    field name to a list of messages, given as the sequence [errors.items()]
    iterates, in iteration order. *)
Definition Errors : Type := list (string * list string).

(** What [json.loads] returns for an exported item: a dict keyed by field
    name. *)
Definition Data : Type := gmap string json.

(** A class object: [cls.__name__], [cls.__module__], whether
    [issubclass(cls, schematics.models.Model)], and [repr(type(cls))], the
    way its metaclass prints: [<type 'type'>] for a plain class,
    [<class 'scrapy.item.ItemMeta'>] for an item class. *)
Record class : Type := {
  __name__ : string;
  __module__ : string;
  subclasses_Model : bool;
  metaclass_repr : string;
}.

(** What an item holds under a field: a JSON-like value, or a
    [defaultdict(list)] from field names to lists of messages. *)
Inductive value : Type :=
| VJson (j : json)
| VErrors (d : gmap string (list string)).

(** A scrapy [Item]: [item.__class__], the keys of [item.__class__.fields]
    and the dict [item._values]. *)
Record Item : Type := {
  __class__ : class;
  fields : gset string;
  _values : gmap string value;
}.

(** A validator: [validator.name] and [validator.validate(data)], which
    answers [(ok, errors)]. *)
Record Validator : Type := {
  name : string;
  validate : Data -> bool * Errors;
}.

(** ** The pipeline object *)

Definition DEFAULT_ERRORS_FIELD : string := "_validation".
Definition DEFAULT_ADD_ERRORS_TO_ITEM : bool := false.
Definition DEFAULT_DROP_ITEMS_WITH_ERRORS : bool := false.

(** [class UniversalItem(object): pass] *)
Definition UniversalItem : class :=
  {| __name__ := "UniversalItem";
     __module__ := "spidermon.contrib.scrapy.pipelines";
     subclasses_Model := false;
     metaclass_repr := "<type 'type'>" |}.

Record ItemValidationPipeline : Type := {
  drop_items_with_errors : bool;
  add_errors_to_items : bool;
  errors_field : string;
  validators : gmap string (list Validator);
}.

(** ** Calls that leave the pipeline *)

(** The methods of [ValidationStatsManager] the pipeline calls. *)
Inductive StatCall : Type :=
| add_validator (type_name validator_name : string)
| add_item
| add_fields (n : nat)
| add_field_error (field_name message : string)
| add_item_with_errors
| add_dropped_item.

Inductive Event : Type :=
| Stat (c : StatCall)                       (* self.stats.<c> *)
| Export (item : Item)                      (* JsonLinesItemExporter(..).export_item(item) *)
| Validate (v : Validator) (data : Data).   (* v.validate(data) *)

(** The state a dispatch runs in: the item object, which is passed by
    reference and mutated in place, and the log of outgoing calls. *)
Record Run : Type := {
  item_obj : Item;
  log : list Event;
}.

Definition emit (e : Event) : M Run unit :=
  modify (fun r => {| item_obj := item_obj r; log := log r ++ [e] |}).
Definition stats (c : StatCall) : M Run unit := emit (Stat c).
Definition the_item : M Run Item := fun r => (Return (item_obj r), r).
Definition set_item (i : Item) : M Run unit :=
  modify (fun r => {| item_obj := i; log := log r |}).

(** ** Item access (scrapy.Item) *)

(** [item[key] = v]: [Item.__setitem__] accepts declared fields only. *)
Definition Item_setitem (key : string) (v : value) : M Run unit :=
  item <- the_item ;;
  if decide (key ∈ fields item)
  then set_item {| __class__ := __class__ item; fields := fields item;
                   _values := <[key := v]> (_values item) |}
  else raise (KeyError key).

(** [item[key]]: [Item.__getitem__] is [self._values[key]]. *)
Definition Item_getitem (key : string) : M Run value :=
  item <- the_item ;;
  match _values item !! key with
  | Some v => ret v
  | None => raise (KeyError key)
  end.

(** [d[k]] and [d[k] = v] on a plain dict given by its items. *)
Fixpoint dict_get (k : string) (kv : list (string * json)) : option json :=
  match kv with
  | [] => None
  | (k', v) :: kv' => if String.eqb k' k then Some v else dict_get k kv'
  end.

Fixpoint dict_set (k : string) (v : json) (kv : list (string * json))
  : list (string * json) :=
  match kv with
  | [] => [(k, v)]
  | (k', v') :: kv' =>
      if String.eqb k' k then (k, v) :: kv' else (k', v') :: dict_set k v kv'
  end.

(** [container[k] += messages], the container after the update.  A
    [defaultdict(list)] supplies the empty list for a missing key; a plain
    dict raises [KeyError] for one, extends a list it holds under [k] and
    raises [TypeError] for what is no list; a value that is no dict cannot
    be subscripted by a string. *)
Definition subscript_iadd (container : value) (k : string)
    (messages : list string) : outcome value :=
  match container with
  | VErrors d => Return (VErrors (<[k := default [] (d !! k) ++ messages]> d))
  | VJson (JObj kv) =>
      match dict_get k kv with
      | None => Raise (KeyError k)
      | Some (JArr l) =>
          Return (VJson (JObj (dict_set k (JArr (l ++ map JStr messages)) kv)))
      | Some _ => Raise TypeError
      end
  | VJson _ => Raise TypeError
  end.

Section Pipeline.

(** The record-to-mapping conversion is scrapy's and the json module's:
    [exported item] is [json.loads] of the line
    [JsonLinesItemExporter.export_item] writes for [item]. *)
Variable exported : Item -> Data.

Definition _convert_item_to_dict (self : ItemValidationPipeline) : M Run Data :=
  item <- the_item ;;
  emit (Export item) ;;
  ret (exported item).

Definition find_validators (self : ItemValidationPipeline) (item : Item)
  : list Validator :=
  let find := fun x : class => default [] (validators self !! __name__ x) in
  find (__class__ item) ++ find UniversalItem.

Definition _add_errors_to_item (self : ItemValidationPipeline)
    (errors : Errors) : M Run unit :=
  item <- the_item ;;
  when (negb (bool_decide (errors_field self ∈ fields item)))
    (set_item {| __class__ := __class__ item;
                 fields := {[ errors_field self ]} ∪ fields item;
                 _values := _values item |}) ;;
  item <- the_item ;;
  when (negb (bool_decide (is_Some (_values item !! errors_field self))))
    (Item_setitem (errors_field self) (VErrors ∅)) ;;
  for_each errors (fun entry =>
    let '(field_name, messages) := entry in
    container <- Item_getitem (errors_field self) ;;
    container' <- lift (subscript_iadd container field_name messages) ;;
    item <- the_item ;;
    set_item {| __class__ := __class__ item; fields := fields item;
                _values := <[errors_field self := container']> (_values item) |}).

Definition call_validate (validator : Validator) (data : Data)
  : M Run (bool * Errors) :=
  emit (Validate validator data) ;;
  ret (validate validator data).

Definition process_item (self : ItemValidationPipeline) : M Run Item :=
  data <- _convert_item_to_dict self ;;
  stats add_item ;;
  stats (add_fields (size data)) ;;
  item <- the_item ;;
  for_each (find_validators self item) (fun validator =>
    answer <- call_validate validator data ;;
    let '(ok, errors) := answer in
    when (negb ok)
      (for_each errors (fun entry =>
         let '(field_name, messages) := entry in
         for_each messages (fun message =>
           stats (add_field_error field_name message))) ;;
       stats add_item_with_errors ;;
       when (add_errors_to_items self) (_add_errors_to_item self errors) ;;
       when (drop_items_with_errors self)
         (stats add_dropped_item ;;
          raise (DropItem "Validation failed!")))) ;;
  the_item.

(** [process_item(item, spider)] on a statistics collector whose earlier
    calls are [log0]. *)
Definition dispatch (self : ItemValidationPipeline) (item : Item)
    (log0 : list Event) : outcome Item * Run :=
  process_item self {| item_obj := item; log := log0 |}.

(** The three calls every dispatch starts with (lines 99-101). *)
Definition preamble (item : Item) : list Event :=
  [Export item; Stat add_item; Stat (add_fields (size (exported item)))].

End Pipeline.

(** ** Construction from the crawler settings *)

(** The Python values a declaration setting is made of; strings are byte
    strings ([str]). *)
#[warnings="-register-all"]
Inductive pyobj : Type :=
| PyNone
| PyBool (b : bool)
| PyStr (s : string)
| PyList (l : list pyobj)
| PyTuple (l : list pyobj)
| PyDict (items : list (pyobj * pyobj))    (* in [items()] order *)
| PyClass (c : class).

Inductive pytype : Type :=
| NoneType | bool_t | str_t | list_t | tuple_t | dict_t | type_t.

#[global] Instance pytype_eq_dec : EqDecision pytype.
Proof. solve_decision. Defined.

(** [type(x)]; [type_t] stands for the metaclass of a class object, [type]
    or a subclass of it, which is none of the other six. *)
Definition type (x : pyobj) : pytype :=
  match x with
  | PyNone => NoneType
  | PyBool _ => bool_t
  | PyStr _ => str_t
  | PyList _ => list_t
  | PyTuple _ => tuple_t
  | PyDict _ => dict_t
  | PyClass _ => type_t
  end.

(** [repr(type(x))], which is what [format] puts in place of [{}]; the
    type of a class object is its metaclass. *)
Definition type_repr (x : pyobj) : string :=
  match x with
  | PyNone => "<type 'NoneType'>"
  | PyBool _ => "<type 'bool'>"
  | PyStr _ => "<type 'str'>"
  | PyList _ => "<type 'list'>"
  | PyTuple _ => "<type 'tuple'>"
  | PyDict _ => "<type 'dict'>"
  | PyClass c => metaclass_repr c
  end.

(** [bool(x)], as read by [if not res] *)
Definition truthy (x : pyobj) : bool :=
  match x with
  | PyNone => false
  | PyBool b => b
  | PyStr s => negb (String.eqb s "")
  | PyList l | PyTuple l => negb (Nat.eqb (List.length l) 0)
  | PyDict items => negb (Nat.eqb (List.length items) 0)
  | PyClass _ => true
  end.

(** [s.endswith(suffix)] *)
Definition endswith (s suffix : string) : bool :=
  let n := String.length s in
  let m := String.length suffix in
  (m <=? n)%nat && String.eqb (String.substring (n - m) m s) suffix.

(** [x.items()] *)
Definition items (x : pyobj) : outcome (list (pyobj * pyobj)) :=
  match x with
  | PyDict kv => Return kv
  | _ => Raise AttributeError
  end.

(** [obj.__name__] *)
Definition getattr__name__ (obj : pyobj) : outcome string :=
  match obj with
  | PyClass c => Return (__name__ c)
  | _ => Raise AttributeError
  end.

Record Settings : Type := {
  SPIDERMON_VALIDATION_SCHEMAS : pyobj;
  SPIDERMON_VALIDATION_MODELS : pyobj;
  SPIDERMON_VALIDATION_DROP_ITEMS_WITH_ERRORS : option bool;
  SPIDERMON_VALIDATION_ADD_ERRORS_TO_ITEMS : option bool;
  SPIDERMON_VALIDATION_ERRORS_FIELD : option string;
}.

(** Truth value of an optional boolean setting ([None] when unset). *)
Definition is_true (b : option bool) : bool := default false b.

(** The order in which [validators.items()] yields the entries of the
    registry.  Python leaves it unspecified: it is a parameter of the
    construction, and may be any enumeration of the entries. *)
Record dict_order : Type := {
  dict_items : gmap string (list Validator) -> list (string * list Validator);
  dict_items_perm : forall d, dict_items d ≡ₚ map_to_list d;
}.

(** [ItemValidationPipeline.__init__]; the statistics manager is told the
    name of every registered validator, entry by entry in the order of
    [validators.items()]. *)
Definition __init__ (order : dict_order)
    (validators : gmap string (list Validator))
    (drop_items_with_errors add_errors_to_items : option bool)
    (errors_field : option string) : M (list Event) ItemValidationPipeline :=
  let self :=
    {| drop_items_with_errors := is_true drop_items_with_errors;
       add_errors_to_items :=
         is_true add_errors_to_items || DEFAULT_ADD_ERRORS_TO_ITEM;
       errors_field :=
         match errors_field with
         | Some f => if String.eqb f "" then DEFAULT_ERRORS_FIELD else f
         | None => DEFAULT_ERRORS_FIELD
         end;
       validators := validators |} in
  for_each (dict_items order validators) (fun entry =>
    let '(_type, vals) := entry in
    for_each vals (fun val =>
      modify (fun log => log ++ [Stat (add_validator _type (name val))]))) ;;
  ret self.

Section Construction.

(** The iteration order of the registry, and the external collaborators
    of the loaders: [json.load(open(path))], scrapy's [load_object],
    [json.loads], and the two validator classes of
    [spidermon.contrib.validation]. *)
Variable order : dict_order.
Variable read_json_file : string -> outcome pyobj.
Variable load_object : pyobj -> outcome pyobj.
Variable json_loads : string -> outcome pyobj.
Variable JSONSchemaValidator : pyobj -> Validator.
Variable SchematicsValidator : class -> Validator.

Definition invalid_schema_message : string :=
  "Invalid schema, jsonschemas must be defined as:
- a python dict.
- an object path to a python dict.
- an object path to a JSON string.
- a path to a JSON file.".

Definition _load_jsonschema_validator (schema : pyobj) : outcome Validator :=
  let resolved :=
    match schema with
    | PyStr path =>
        if endswith path ".json" then read_json_file path
        else
          match load_object schema with
          | Return (PyStr text) => json_loads text
          | other => other
          end
    | _ => Return schema
    end in
  match resolved with
  | Return (PyDict kv) => Return (JSONSchemaValidator (PyDict kv))
  | Return _ => Raise (NotConfigured invalid_schema_message)
  | Raise e => Raise e
  end.

Definition _load_schematics_validator (model_path : pyobj) : outcome Validator :=
  match load_object model_path with
  | Return (PyClass model_class) =>
      if negb (subclasses_Model model_class)
      then Raise (NotConfigured
             "Invalid model, models must subclass schematics.models.Model")
      else Return (SchematicsValidator model_class)
  | Return _ => Raise TypeError       (* issubclass() arg 1 must be a class *)
  | Raise e => Raise e
  end.

(** The registry under construction is the local dict [validators] that
    [set_validators] closes over. *)
Definition set_validators (loader : pyobj -> outcome Validator)
    (schema : pyobj) : M (gmap string (list Validator)) unit :=
  let schema :=
    if bool_decide (type schema ∈ [list_t; tuple_t])
    then PyDict [(PyClass UniversalItem, schema)] else schema in
  entries <- lift (items schema) ;;
  for_each entries (fun entry =>
    let '(obj, paths) := entry in
    key <- lift (getattr__name__ obj) ;;
    let paths :=
      match paths with
      | PyList l | PyTuple l => l
      | _ => [paths]
      end in
    objects <- comprehension (fun v => lift (loader v)) paths ;;
    modify (fun validators =>
      <[key := default [] (validators !! key) ++ objects]> validators)).

Definition allowed_types : list pytype := [list_t; tuple_t; dict_t].

Definition invalid_type_message (res : pyobj) (name : string) : string :=
  "Invalid <" ++ type_repr res ++ "> type for <" ++ name
    ++ "> settings, dict or list/tupleis required".

(** The loop of [from_crawler] over the two declaration settings. *)
Definition load_settings (crawler : Settings)
  : M (gmap string (list Validator)) unit :=
  for_each
    [(_load_jsonschema_validator, "SPIDERMON_VALIDATION_SCHEMAS",
      SPIDERMON_VALIDATION_SCHEMAS crawler);
     (_load_schematics_validator, "SPIDERMON_VALIDATION_MODELS",
      SPIDERMON_VALIDATION_MODELS crawler)]
    (fun source =>
      let '(loader, name, res) := source in
      if negb (truthy res) then ret tt
      else if negb (bool_decide (type res ∈ allowed_types))
      then raise (NotConfigured (invalid_type_message res name))
      else set_validators loader res).

Definition from_crawler (crawler : Settings)
  : M (list Event) ItemValidationPipeline :=
  match load_settings crawler ∅ with
  | (Raise e, _) => raise e
  | (Return _, validators) =>
      __init__ order validators
        (SPIDERMON_VALIDATION_DROP_ITEMS_WITH_ERRORS crawler)
        (SPIDERMON_VALIDATION_ADD_ERRORS_TO_ITEMS crawler)
        (SPIDERMON_VALIDATION_ERRORS_FIELD crawler)
  end.

(** The body of the loop of [from_crawler] (lines 58-64). *)
Definition load_source (loader : pyobj -> outcome Validator) (name : string)
    (res : pyobj) : M (gmap string (list Validator)) unit :=
  if negb (truthy res) then ret tt
  else if negb (bool_decide (type res ∈ allowed_types))
  then raise (NotConfigured (invalid_type_message res name))
  else set_validators loader res.

End Construction.

(** The body of the loop of [set_validators] (lines 49-52). *)
Definition register_entry (loader : pyobj -> outcome Validator)
    (entry : pyobj * pyobj) : M (gmap string (list Validator)) unit :=
  let '(obj, paths) := entry in
  key <- lift (getattr__name__ obj) ;;
  let paths :=
    match paths with
    | PyList l | PyTuple l => l
    | _ => [paths]
    end in
  objects <- comprehension (fun v => lift (loader v)) paths ;;
  modify (fun validators =>
    <[key := default [] (validators !! key) ++ objects]> validators).

(** ** What a declaration source registers, in closed form *)

(** [paths if type(paths) in (list, tuple) else [paths]] *)
Definition normalized (paths : pyobj) : list pyobj :=
  match paths with
  | PyList l | PyTuple l => l
  | _ => [paths]
  end.

(** The entries a declaration setting stands for: a list or tuple is one
    entry for the universal type, a dict its own items. *)
Definition entries_of (res : pyobj) : list (pyobj * pyobj) :=
  match res with
  | PyList _ | PyTuple _ => [(PyClass UniversalItem, res)]
  | PyDict kv => kv
  | _ => []
  end.

(** The declarations that [entries] make for the type name [key], in
    order. *)
Definition declared_for (key : string) (entries : list (pyobj * pyobj))
  : list pyobj :=
  flat_map (fun entry : pyobj * pyobj =>
              match entry.1 with
              | PyClass c =>
                  if String.eqb (__name__ c) key then normalized entry.2 else []
              | _ => []
              end)
           entries.

(** [[loader(v) for v in paths]] without the registry. *)
Fixpoint load_all (loader : pyobj -> outcome Validator) (paths : list pyobj)
  : outcome (list Validator) :=
  match paths with
  | [] => Return []
  | v :: paths' =>
      match loader v with
      | Return x =>
          match load_all loader paths' with
          | Return xs => Return (x :: xs)
          | Raise e => Raise e
          end
      | Raise e => Raise e
      end
  end.

(** The entries a declaration setting contributes: none when it is unset
    or empty. *)
Definition source_entries (res : pyobj) : list (pyobj * pyobj) :=
  if truthy res then entries_of res else [].

(** A declaration setting that is set (truthy) but is neither a list, a
    tuple nor a dict. *)
Definition wrong_container (res : pyobj) : bool :=
  truthy res && negb (bool_decide (type res ∈ [list_t; tuple_t; dict_t])).

(** ** What a dispatch leaves behind, in closed form *)

(** The [add_field_error] calls lines 105-107 make for [errors]: one per
    field and message, fields in [items()] order, messages in list order. *)
Definition field_error_calls (errors : Errors) : list Event :=
  flat_map (fun entry : string * list string =>
              map (fun message => Stat (add_field_error entry.1 message)) entry.2)
           errors.

(** The outgoing calls one validator causes when nothing is dropped. *)
Definition validator_calls (v : Validator) (data : Data) : list Event :=
  Validate v data ::
  (if (validate v data).1 then []
   else field_error_calls (validate v data).2 ++ [Stat add_item_with_errors]).

(** The error mappings of the validators of [vs] that answer not-ok on
    [data], in the order of [vs]. *)
Definition failures (data : Data) (vs : list Validator) : list Errors :=
  omap (fun v => if (validate v data).1 then None else Some (validate v data).2) vs.

(** [errors] appended, entry by entry, to the message lists of [d]. *)
Definition merge_errors (errors : Errors) (d : gmap string (list string))
  : gmap string (list string) :=
  fold_left (fun d (entry : string * list string) =>
               <[entry.1 := default [] (d !! entry.1) ++ entry.2]> d)
            errors d.

(** The messages an item carries under field [ef], when what it holds
    there is a mapping of messages. *)
Definition prior_messages (ef : string) (item : Item)
  : gmap string (list string) :=
  match _values item !! ef with
  | Some (VErrors d) => d
  | _ => ∅
  end.

(** [item] once [errors] have been added under field [ef], for an item
    that holds a mapping of messages there, or nothing. *)
Definition annotated (ef : string) (errors : Errors) (item : Item) : Item :=
  {| __class__ := __class__ item;
     fields := {[ ef ]} ∪ fields item;
     _values := <[ef := VErrors (merge_errors errors (prior_messages ef item))]>
                  (_values item) |}.

(** The errors field is absent from the item, or holds a mapping of
    messages such as the pipeline itself stores there. *)
Definition holds_messages (slot : option value) : bool :=
  match slot with
  | Some (VJson _) => false
  | _ => true
  end.

(** Annotation is switched off, or the item's errors field can take it. *)
Definition annotatable (self : ItemValidationPipeline) (item : Item) : bool :=
  negb (add_errors_to_items self)
  || holds_messages (_values item !! errors_field self).

(** The exceptions line 133 can raise. *)
Definition subscript_error (e : exn) : Prop :=
  e = TypeError \/ exists k, e = KeyError k.

(** The list that the value held under the errors field keeps for the key
    [k], as JSON: the messages of a mapping of messages, the list a plain
    dict holds under [k], and nothing otherwise. *)
Definition stored (slot : option value) (k : string) : list json :=
  match slot with
  | Some (VErrors d) => map JStr (default [] (d !! k))
  | Some (VJson (JObj kv)) =>
      match dict_get k kv with
      | Some (JArr l) => l
      | _ => []
      end
  | _ => []
  end.

(** [item'] is [item] but for the errors field [ef]: the class is the same,
    no field but [ef] has been declared, every other value is as it was,
    what was held under [ef] is still held there, and the lists stored
    there have only grown at their ends. *)
Definition touched_only (ef : string) (item item' : Item) : Prop :=
  __class__ item' = __class__ item
  /\ fields item ⊆ fields item'
  /\ fields item' ⊆ {[ ef ]} ∪ fields item
  /\ (forall k, k <> ef -> _values item' !! k = _values item !! k)
  /\ (is_Some (_values item !! ef) -> is_Some (_values item' !! ef))
  /\ (forall k, stored (_values item !! ef) k
                `prefix_of` stored (_values item' !! ef) k).

(** The validator invocations of a log, in order. *)
Definition invocations (tr : list Event) : list (Validator * Data) :=
  omap (fun e => match e with Validate v d => Some (v, d) | _ => None end) tr.

(** How often a log calls [c] on the statistics manager. *)
Definition calls_of (c : StatCall -> bool) (tr : list Event) : nat :=
  List.length (List.filter (fun e => match e with Stat s => c s | _ => false end) tr).

Definition is_add_item (c : StatCall) : bool :=
  match c with add_item => true | _ => false end.
Definition is_add_fields (c : StatCall) : bool :=
  match c with add_fields _ => true | _ => false end.
Definition is_add_field_error (c : StatCall) : bool :=
  match c with add_field_error _ _ => true | _ => false end.
Definition is_add_item_with_errors (c : StatCall) : bool :=
  match c with add_item_with_errors => true | _ => false end.
Definition is_add_dropped_item (c : StatCall) : bool :=
  match c with add_dropped_item => true | _ => false end.

(** The item once every error mapping of [es] has been added to it, if the
    pipeline annotates at all. *)
Definition annotate_all (self : ItemValidationPipeline) (es : list Errors)
    (item : Item) : Item :=
  if add_errors_to_items self
  then fold_left (fun it e => annotated (errors_field self) e it) es item
  else item.

(** The body of the loop of [process_item] (lines 103-113). *)
Definition loop_body (self : ItemValidationPipeline) (data : Data)
    (validator : Validator) : M Run unit :=
  answer <- call_validate validator data ;;
  let '(ok, errors) := answer in
  when (negb ok)
    (for_each errors (fun entry =>
       let '(field_name, messages) := entry in
       for_each messages (fun message =>
         stats (add_field_error field_name message))) ;;
     stats add_item_with_errors ;;
     when (add_errors_to_items self) (_add_errors_to_item self errors) ;;
     when (drop_items_with_errors self)
       (stats add_dropped_item ;;
        raise (DropItem "Validation failed!"))).

(** The body of the loop of [_add_errors_to_item] (line 133). *)
Definition append_messages (self : ItemValidationPipeline)
    (entry : string * list string) : M Run unit :=
  let '(field_name, messages) := entry in
  container <- Item_getitem (errors_field self) ;;
  container' <- lift (subscript_iadd container field_name messages) ;;
  item <- the_item ;;
  set_item {| __class__ := __class__ item; fields := fields item;
              _values := <[errors_field self := container']> (_values item) |}.

(** ** A sample project *)

Module Sample.

(** An exporter that writes every populated field as it is; a mapping of
    messages becomes a JSON object of arrays. *)
Definition to_json (v : value) : json :=
  match v with
  | VJson j => j
  | VErrors d => JObj (map_to_list ((fun l => JArr (map JStr l)) <$> d))
  end.

Definition exported (item : Item) : Data := to_json <$> _values item.

Definition Product : class :=
  {| __name__ := "Product"; __module__ := "shop.items";
     subclasses_Model := false;
     metaclass_repr := "<class 'scrapy.item.ItemMeta'>" |}.

Definition ProductModel : class :=
  {| __name__ := "ProductModel"; __module__ := "shop.models";
     subclasses_Model := true;
     metaclass_repr := "<class 'schematics.models.ModelMeta'>" |}.

Definition product : Item :=
  {| __class__ := Product;
     fields := {[ "title"; "price" ]};
     _values := {[ "title" := VJson (JStr ""); "price" := VJson (JNum 3) ]} |}.

(** The same record, already carrying errors from an earlier pass. *)
Definition revisited : Item :=
  {| __class__ := Product;
     fields := {[ "title"; "price"; "_validation" ]};
     _values := {[ "title" := VJson (JStr ""); "price" := VJson (JNum 3);
                   "_validation" := VErrors {[ "a" := ["old"] ]} ]} |}.

(** A record of a project that keeps a note of its own in a field called
    [_validation]. *)
Definition checked : Item :=
  {| __class__ := Product;
     fields := {[ "title"; "price"; "_validation" ]};
     _values := {[ "title" := VJson (JStr ""); "price" := VJson (JNum 3);
                   "_validation" := VJson (JStr "checked by hand") ]} |}.

(** A record whose [title] is a dict of lists, and a validator that
    reports on two keys of it. *)
Definition translated : Item :=
  {| __class__ := Product;
     fields := {[ "title"; "price" ]};
     _values := {[ "title" := VJson (JObj [("x", JArr [])]);
                   "price" := VJson (JNum 3) ]} |}.

Definition rejects_x_a : Validator :=
  {| name := "rejects_x_a";
     validate := fun _ => (false, [("x", ["m"]); ("a", ["n"])]) |}.

Definition rejects_a : Validator :=
  {| name := "rejects_a";
     validate := fun _ => (false, [("a", ["bad1"])]) |}.

Definition rejects_a_b : Validator :=
  {| name := "rejects_a_b";
     validate := fun _ => (false, [("a", ["bad2"]); ("b", ["bad3"])]) |}.

Definition requires_title : Validator :=
  {| name := "requires_title";
     validate := fun data =>
       match data !! "title" with
       | Some (JStr "") | None => (false, [("title", ["required"])])
       | _ => (true, [])
       end |}.

Definition pipeline (drop annotate : bool) : ItemValidationPipeline :=
  {| drop_items_with_errors := drop;
     add_errors_to_items := annotate;
     errors_field := DEFAULT_ERRORS_FIELD;
     validators := {[ "Product" := [rejects_a];
                      "UniversalItem" := [rejects_a_b] ]} |}.

(** A pipeline that knows validators for orders only. *)
Definition orders_only : ItemValidationPipeline :=
  {| drop_items_with_errors := true;
     add_errors_to_items := true;
     errors_field := DEFAULT_ERRORS_FIELD;
     validators := {[ "Order" := [rejects_a] ]} |}.

(** Property 7 of the specification: one universal validator. *)
Definition end_to_end : ItemValidationPipeline :=
  {| drop_items_with_errors := false;
     add_errors_to_items := true;
     errors_field := DEFAULT_ERRORS_FIELD;
     validators := {[ "UniversalItem" := [requires_title] ]} |}.

(** A project that keeps the errors under the [title] field. *)
Definition titled : ItemValidationPipeline :=
  {| drop_items_with_errors := false;
     add_errors_to_items := true;
     errors_field := "title";
     validators := {[ "Product" := [rejects_x_a; rejects_a] ]} |}.

(** Collaborators of the loaders: every file and object path resolves. *)
Definition read_json_file (path : string) : outcome pyobj :=
  Return (PyDict [(PyStr "title", PyStr path)]).

Definition load_object (path : pyobj) : outcome pyobj :=
  match path with
  | PyStr "shop.models.ProductModel" => Return (PyClass ProductModel)
  | PyStr p => Return (PyDict [(PyStr "title", PyStr p)])
  | _ => Raise AttributeError
  end.

Definition json_loads (text : string) : outcome pyobj :=
  Return (PyDict [(PyStr "title", PyStr text)]).

Definition JSONSchemaValidator (schema : pyobj) : Validator :=
  {| name := match schema with
             | PyDict [(_, PyStr title)] => title
             | _ => "JSONSchemaValidator"
             end;
     validate := fun _ => (true, []) |}.

Definition SchematicsValidator (model : class) : Validator :=
  {| name := __name__ model; validate := fun _ => (true, []) |}.

Definition schema_loader : pyobj -> outcome Validator :=
  _load_jsonschema_validator read_json_file load_object json_loads
    JSONSchemaValidator.

(** The registry is walked in the order [map_to_list] gives. *)
Definition sorted : dict_order :=
  {| dict_items := map_to_list;
     dict_items_perm := fun d => reflexivity (map_to_list d) |}.

Definition construct : Settings -> M (list Event) ItemValidationPipeline :=
  from_crawler sorted read_json_file load_object json_loads
    JSONSchemaValidator SchematicsValidator.

Definition settings (schemas models : pyobj) : Settings :=
  {| SPIDERMON_VALIDATION_SCHEMAS := schemas;
     SPIDERMON_VALIDATION_MODELS := models;
     SPIDERMON_VALIDATION_DROP_ITEMS_WITH_ERRORS := None;
     SPIDERMON_VALIDATION_ADD_ERRORS_TO_ITEMS := None;
     SPIDERMON_VALIDATION_ERRORS_FIELD := None |}.

End Sample.

(** ** The whole dispatch, in closed form *)

(** The validators of [vs] up to and including the first that answers
    not-ok on [data]; all of [vs] when none does. *)
Fixpoint through_first_failure (data : Data) (vs : list Validator)
  : list Validator :=
  match vs with
  | [] => []
  | v :: vs' =>
      if (validate v data).1 then v :: through_first_failure data vs' else [v]
  end.

(** The validators a dispatch invokes: with the drop switch on it stops at
    the first failure. *)
Definition invoked (self : ItemValidationPipeline) (data : Data)
    (vs : list Validator) : list Validator :=
  if drop_items_with_errors self then through_first_failure data vs else vs.

(** Whether a dispatch ends in [DropItem]. *)
Definition dropped (self : ItemValidationPipeline) (data : Data)
    (vs : list Validator) : bool :=
  drop_items_with_errors self && negb (forallb (fun v => (validate v data).1) vs).

(** The [add_validator] calls made for the entries of a registry, taken in
    the order given. *)
Definition registration_calls (entries : list (string * list Validator))
  : list Event :=
  flat_map (fun entry : string * list Validator =>
              map (fun val => Stat (add_validator entry.1 (name val))) entry.2)
           entries.

(** How one turn of the loop of [process_item] ends on a failing
    validator: it returns when the drop switch is off, raises [DropItem]
    when it is on, and otherwise passes on an exception of line 133. *)
Definition turn_ends (self : ItemValidationPipeline) (o : outcome unit) : Prop :=
  match o with
  | Return _ => drop_items_with_errors self = false
  | Raise (DropItem msg) =>
      msg = "Validation failed!" /\ drop_items_with_errors self = true
  | Raise e => add_errors_to_items self = true /\ subscript_error e
  end.

(** How the loop of [process_item] ends on the validators [vs], having
    invoked [ran]: [ran] is an initial run of [vs] that reaches at least
    through the first failing validator, and no further when the drop
    switch is on; the loop returns after all of [vs], raises [DropItem]
    after the first failing one, or passes on an exception of line 133
    after a failing one. *)
Definition loop_ends {A} (self : ItemValidationPipeline) (data : Data)
    (vs ran : list Validator) (o : outcome A) : Prop :=
  ran `prefix_of` vs
  /\ through_first_failure data vs `prefix_of` ran
  /\ (drop_items_with_errors self = true -> ran = through_first_failure data vs)
  /\ match o with
     | Return _ =>
         ran = vs
         /\ (drop_items_with_errors self = true -> failures data vs = [])
     | Raise (DropItem msg) =>
         msg = "Validation failed!" /\ drop_items_with_errors self = true
         /\ failures data vs <> []
     | Raise e =>
         add_errors_to_items self = true /\ subscript_error e
         /\ failures data ran <> []
     end.

(** Whether a dispatch or a loop ended in [DropItem]. *)
Definition is_drop {A} (o : outcome A) : bool :=
  match o with
  | Raise (DropItem _) => true
  | _ => false
  end.

(** The pipeline object [__init__] builds. *)
Definition configured (validators : gmap string (list Validator))
    (drop_items_with_errors add_errors_to_items : option bool)
    (errors_field : option string) : ItemValidationPipeline :=
  {| drop_items_with_errors := is_true drop_items_with_errors;
     add_errors_to_items :=
       is_true add_errors_to_items || DEFAULT_ADD_ERRORS_TO_ITEM;
     errors_field :=
       match errors_field with
       | Some f => if String.eqb f "" then DEFAULT_ERRORS_FIELD else f
       | None => DEFAULT_ERRORS_FIELD
       end;
     validators := validators |}.

(** How many messages the error mappings of [es] hold. *)
Definition message_count (es : list Errors) : nat :=
  List.length (concat (map (fun errors : Errors => concat errors.*2) es)).

Module Cases.

Import Sample.

Definition accepts : Validator :=
  {| name := "accepts"; validate := fun _ => (true, []) |}.

(** Product records pass one validator before they fail the next. *)
Definition late_failure : ItemValidationPipeline :=
  {| drop_items_with_errors := true;
     add_errors_to_items := true;
     errors_field := DEFAULT_ERRORS_FIELD;
     validators := {[ "Product" := [accepts; rejects_a];
                      "UniversalItem" := [rejects_a_b] ]} |}.

Definition lenient : ItemValidationPipeline :=
  {| drop_items_with_errors := true;
     add_errors_to_items := true;
     errors_field := DEFAULT_ERRORS_FIELD;
     validators := {[ "Product" := [accepts];
                      "UniversalItem" := [accepts] ]} |}.

(** A record whose class happens to be called [UniversalItem]. *)
Definition universal_record : Item :=
  {| __class__ := {| __name__ := "UniversalItem"; __module__ := "shop.items";
                     subclasses_Model := false;
                     metaclass_repr := "<class 'scrapy.item.ItemMeta'>" |};
     fields := {[ "title" ]};
     _values := {[ "title" := VJson (JStr "x") ]} |}.

Definition declared : Settings :=
  {| SPIDERMON_VALIDATION_SCHEMAS :=
       PyDict [(PyClass Product, PyStr "product.json")];
     SPIDERMON_VALIDATION_MODELS := PyList [PyStr "shop.models.ProductModel"];
     SPIDERMON_VALIDATION_DROP_ITEMS_WITH_ERRORS := Some true;
     SPIDERMON_VALIDATION_ADD_ERRORS_TO_ITEMS := None;
     SPIDERMON_VALIDATION_ERRORS_FIELD := Some "" |}.

End Cases.

(** * Properties *)

(** ** Running the monad *)

Lemma bind_Return {S A B} (c : M S A) (k : A -> M S B) s a s' :
  c s = (Return a, s') -> bind c k s = k a s'.
Proof. intros H. unfold bind. now rewrite H. Qed.

Lemma bind_Raise {S A B} (c : M S A) (k : A -> M S B) s e s' :
  c s = (Raise e, s') -> bind c k s = (Raise e, s').
Proof. intros H. unfold bind. now rewrite H. Qed.

(** ** The statistics calls of one failing validator *)

Lemma report_messages (field_name : string) (messages : list string) it l :
  for_each messages (fun message => stats (add_field_error field_name message))
    {| item_obj := it; log := l |}
  = (Return tt,
     {| item_obj := it;
        log := l ++ map (fun message => Stat (add_field_error field_name message))
                        messages |}).
Proof.
  revert l. induction messages as [|m ms IH]; intros l; simpl.
  - now rewrite app_nil_r.
  - unfold bind, stats, emit, modify. simpl. rewrite IH.
    now rewrite <- app_assoc.
Qed.

Lemma report_field_errors (errors : Errors) it l :
  for_each errors (fun entry =>
      let '(field_name, messages) := entry in
      for_each messages (fun message =>
        stats (add_field_error field_name message)))
    {| item_obj := it; log := l |}
  = (Return tt, {| item_obj := it; log := l ++ field_error_calls errors |}).
Proof.
  revert l. induction errors as [|[f ms] es IH]; intros l; simpl.
  - now rewrite app_nil_r.
  - unfold bind. rewrite report_messages, IH. simpl.
    now rewrite <- !app_assoc.
Qed.

(** ** Annotation *)

Lemma add_errors_to_item_unfold (self : ItemValidationPipeline)
    (errors : Errors) :
  _add_errors_to_item self errors =
  (item <- the_item ;;
   when (negb (bool_decide (errors_field self ∈ fields item)))
     (set_item {| __class__ := __class__ item;
                  fields := {[ errors_field self ]} ∪ fields item;
                  _values := _values item |}) ;;
   item <- the_item ;;
   when (negb (bool_decide (is_Some (_values item !! errors_field self))))
     (Item_setitem (errors_field self) (VErrors ∅)) ;;
   for_each errors (append_messages self)).
Proof. reflexivity. Qed.

(** One turn of the loop of line 132, on an item that holds [v] under the
    errors field. *)
Lemma append_messages_run (self : ItemValidationPipeline) f ms
    cls flds (vals : gmap string value) (v : value) l :
  vals !! errors_field self = Some v ->
  append_messages self (f, ms)
    {| item_obj := {| __class__ := cls; fields := flds; _values := vals |};
       log := l |}
  = match subscript_iadd v f ms with
    | Return v' =>
        (Return tt,
         {| item_obj := {| __class__ := cls; fields := flds;
                           _values := <[errors_field self := v']> vals |};
            log := l |})
    | Raise e =>
        (Raise e,
         {| item_obj := {| __class__ := cls; fields := flds; _values := vals |};
            log := l |})
    end.
Proof.
  intros Hv. unfold append_messages, Item_getitem, bind, the_item, lift,
    set_item, modify. simpl. rewrite Hv. simpl.
  now destruct (subscript_iadd v f ms).
Qed.

Lemma add_messages_loop (self : ItemValidationPipeline) (errors : Errors)
    cls flds (vals : gmap string value) d l :
  for_each errors (append_messages self)
    {| item_obj := {| __class__ := cls; fields := flds;
                      _values := <[errors_field self := VErrors d]> vals |};
       log := l |}
  = (Return tt,
     {| item_obj := {| __class__ := cls; fields := flds;
                       _values := <[errors_field self :=
                                      VErrors (merge_errors errors d)]> vals |};
        log := l |}).
Proof.
  revert d. induction errors as [|[f ms] es IH]; intros d; [done|].
  cbn [for_each]. unfold bind.
  rewrite (append_messages_run self f ms cls flds _ (VErrors d))
    by apply lookup_insert_eq.
  cbn [subscript_iadd]. rewrite insert_insert_eq. apply IH.
Qed.

Lemma declare_errors_field (ef : string) cls flds (vals : gmap string value) l :
  when (negb (bool_decide (ef ∈ flds)))
    (set_item {| __class__ := cls; fields := {[ef]} ∪ flds; _values := vals |})
    {| item_obj := {| __class__ := cls; fields := flds; _values := vals |};
       log := l |}
  = (Return tt,
     {| item_obj := {| __class__ := cls; fields := {[ef]} ∪ flds;
                       _values := vals |};
        log := l |}).
Proof.
  case_bool_decide as Hin; simpl; [|done].
  unfold ret. do 3 f_equal. apply set_eq. intros x.
  rewrite elem_of_union, elem_of_singleton. split; [tauto|].
  intros [->|Hx]; done.
Qed.

(** On an item whose errors field is absent or holds a mapping of
    messages, annotation returns: the errors field is declared before it
    is assigned, and assigned before it is read. *)
Lemma add_errors_to_item_run (self : ItemValidationPipeline) (errors : Errors)
    (item : Item) l :
  holds_messages (_values item !! errors_field self) = true ->
  _add_errors_to_item self errors {| item_obj := item; log := l |}
  = (Return tt,
     {| item_obj := annotated (errors_field self) errors item; log := l |}).
Proof.
  destruct item as [cls flds vals]. simpl. intros Hslot.
  rewrite add_errors_to_item_unfold. unfold annotated, prior_messages. simpl.
  set (ef := errors_field self) in *.
  assert (Hloop := add_messages_loop self errors cls ({[ef]} ∪ flds) vals).
  fold ef in Hloop.
  unfold bind at 1. unfold the_item at 1. simpl.
  unfold bind at 1. rewrite declare_errors_field.
  unfold bind at 1. unfold the_item at 1. simpl.
  unfold bind at 1.
  destruct (vals !! ef) as [[j|d]|] eqn:Hv; simpl in *; [discriminate| |].
  - rewrite <- (insert_id vals ef (VErrors d)) at 1 by done.
    apply Hloop.
  - unfold Item_setitem, bind, the_item, set_item, modify. simpl.
    rewrite decide_True
      by (apply elem_of_union; left; now apply elem_of_singleton).
    apply Hloop.
Qed.

Lemma annotated_holds_messages ef errors item :
  holds_messages (_values (annotated ef errors item) !! ef) = true.
Proof. simpl. now rewrite lookup_insert_eq. Qed.

(** *** Whatever the errors field holds *)

Lemma dict_get_set k v kv k' :
  dict_get k' (dict_set k v kv)
  = if String.eqb k k' then Some v else dict_get k' kv.
Proof.
  induction kv as [|[k0 v0] kv IH]; simpl; [done|].
  destruct (String.eqb_spec k0 k) as [->|Hne]; simpl.
  - now destruct (String.eqb_spec k k').
  - rewrite IH. destruct (String.eqb_spec k0 k') as [->|Hne']; [|done].
    destruct (String.eqb_spec k k') as [Heq|_]; [congruence|done].
Qed.

Lemma subscript_iadd_stored (v v' : value) f ms :
  subscript_iadd v f ms = Return v' ->
  forall k, stored (Some v) k `prefix_of` stored (Some v') k.
Proof.
  destruct v as [j|d]; simpl.
  - destruct j as [| | | | |kv]; try discriminate.
    destruct (dict_get f kv) as [[| | | |l|]|] eqn:Hf; try discriminate.
    intros H k. inversion H; subst. simpl. rewrite dict_get_set.
    destruct (String.eqb_spec f k) as [<-|Hne]; [|done].
    rewrite Hf. now apply prefix_app_r.
  - intros H k. inversion H; subst. simpl.
    destruct (decide (f = k)) as [->|Hne].
    + rewrite lookup_insert_eq. simpl. rewrite map_app. now apply prefix_app_r.
    + now rewrite lookup_insert_ne.
Qed.

Lemma subscript_iadd_error (v : value) f ms e :
  subscript_iadd v f ms = Raise e -> subscript_error e.
Proof.
  unfold subscript_error. destruct v as [j|d]; simpl; [|discriminate].
  destruct j as [| | | | |kv];
    try destruct (dict_get f kv) as [[| | | |l|]|];
    intros H; inversion H; eauto.
Qed.

(** The loop of line 132 on any item that holds something under the errors
    field: it makes no outgoing call, replaces nothing but what the item
    holds there, and ends by returning or in an exception of line 133. *)
Lemma add_messages_loop_any (self : ItemValidationPipeline) (errors : Errors)
    cls flds l : forall (vals : gmap string value) (v : value),
  vals !! errors_field self = Some v ->
  exists o v',
    for_each errors (append_messages self)
      {| item_obj := {| __class__ := cls; fields := flds; _values := vals |};
         log := l |}
    = (o, {| item_obj := {| __class__ := cls; fields := flds;
                            _values := <[errors_field self := v']> vals |};
             log := l |})
    /\ (forall e, o = Raise e -> subscript_error e)
    /\ (forall k, stored (Some v) k `prefix_of` stored (Some v') k).
Proof.
  induction errors as [|[f ms] es IH]; intros vals v Hv.
  - exists (Return tt), v. simpl. unfold ret. rewrite insert_id by done.
    repeat split; [discriminate|done].
  - cbn [for_each]. unfold bind.
    rewrite (append_messages_run self f ms cls flds vals v) by done.
    destruct (subscript_iadd v f ms) as [v1|e] eqn:Hadd.
    + destruct (IH (<[errors_field self := v1]> vals) v1) as (o & v' & Hrun & Ho & Hpre).
      { apply lookup_insert_eq. }
      exists o, v'. rewrite Hrun, insert_insert_eq. repeat split; [done|].
      intros k. etrans; [|apply Hpre]. now apply (subscript_iadd_stored v v1 f ms).
    + exists (Raise e), v. rewrite insert_id by done. repeat split; [|done].
      intros e' He'. inversion He'; subst. now apply subscript_iadd_error in Hadd.
Qed.

Lemma touched_only_refl ef item : touched_only ef item item.
Proof.
  repeat split; try done.
  intros x Hx. apply elem_of_union. now right.
Qed.

Lemma touched_only_trans ef item1 item2 item3 :
  touched_only ef item1 item2 -> touched_only ef item2 item3 ->
  touched_only ef item1 item3.
Proof.
  intros (Hc1 & Hlo1 & Hhi1 & Hv1 & Hs1 & Hp1) (Hc2 & Hlo2 & Hhi2 & Hv2 & Hs2 & Hp2).
  repeat split.
  - congruence.
  - intros x Hx. apply Hlo2, Hlo1, Hx.
  - intros x Hx. apply Hhi2, elem_of_union in Hx as [Hx|Hx].
    + apply elem_of_union. now left.
    + now apply Hhi1.
  - intros k Hk. now rewrite Hv2, Hv1.
  - auto.
  - intros k. etrans; [apply Hp1|apply Hp2].
Qed.

(** [_add_errors_to_item] on any item: it makes no outgoing call, touches
    the item at the errors field only, and ends by returning or in an
    exception of line 133. *)
Lemma add_errors_to_item_any (self : ItemValidationPipeline) (errors : Errors)
    (item : Item) l :
  exists o item',
    _add_errors_to_item self errors {| item_obj := item; log := l |}
    = (o, {| item_obj := item'; log := l |})
    /\ (forall e, o = Raise e -> subscript_error e)
    /\ touched_only (errors_field self) item item'.
Proof.
  destruct item as [cls flds vals].
  rewrite add_errors_to_item_unfold. set (ef := errors_field self) in *.
  unfold bind at 1. unfold the_item at 1. cbn [item_obj __class__ fields _values].
  unfold bind at 1. rewrite declare_errors_field.
  unfold bind at 1. unfold the_item at 1. cbn [item_obj __class__ fields _values].
  unfold bind at 1.
  assert (Hfields : flds ⊆ {[ef]} ∪ flds).
  { intros x Hx. apply elem_of_union. now right. }
  destruct (vals !! ef) as [v|] eqn:Hv; cbn [negb when bool_decide].
  - rewrite bool_decide_eq_true_2 by eauto. cbn [negb when]. unfold ret at 1.
    destruct (add_messages_loop_any self errors cls ({[ef]} ∪ flds) l vals v Hv)
      as (o & v' & Hrun & Ho & Hpre).
    fold ef in Hrun. eexists o, _. split; [exact Hrun|]. split; [exact Ho|].
    repeat split; cbn [__class__ fields _values]; try done.
    + intros k Hk. now rewrite lookup_insert_ne.
    + intros _. rewrite lookup_insert_eq. eauto.
    + intros k. now rewrite Hv, lookup_insert_eq.
  - rewrite bool_decide_eq_false_2 by (intros [? ?]; discriminate).
    cbn [negb when].
    unfold Item_setitem, bind at 1. unfold the_item at 1. cbn [item_obj fields].
    rewrite decide_True
      by (apply elem_of_union; left; now apply elem_of_singleton).
    unfold set_item, modify. cbn [item_obj log __class__ fields _values].
    destruct (add_messages_loop_any self errors cls ({[ef]} ∪ flds) l
                (<[ef := VErrors ∅]> vals) (VErrors ∅))
      as (o & v' & Hrun & Ho & Hpre).
    { apply lookup_insert_eq. }
    fold ef in Hrun. rewrite insert_insert_eq in Hrun.
    eexists o, _. split; [exact Hrun|]. split; [exact Ho|].
    repeat split; cbn [__class__ fields _values]; try done.
    + intros k Hk. now rewrite lookup_insert_ne.
    + intros _. rewrite lookup_insert_eq. eauto.
    + intros k. rewrite Hv. apply prefix_nil.
Qed.

Lemma process_item_unfold exported (self : ItemValidationPipeline) :
  process_item exported self =
  (data <- _convert_item_to_dict exported self ;;
   stats add_item ;;
   stats (add_fields (size data)) ;;
   item <- the_item ;;
   for_each (find_validators self item) (loop_body self data) ;;
   the_item).
Proof. reflexivity. Qed.

(** One turn of the loop when the validator accepts the data. *)
Lemma loop_body_ok self data v item l :
  (validate v data).1 = true ->
  loop_body self data v {| item_obj := item; log := l |}
  = (Return tt, {| item_obj := item; log := l ++ validator_calls v data |}).
Proof.
  intros Hok. unfold loop_body, validator_calls, call_validate, bind, emit,
    modify, ret. simpl.
  destruct (validate v data) as [ok errors]. simpl in *. subst ok. done.
Qed.

(** One turn of the loop when the validator rejects the data and the
    pipeline does not drop. *)
Lemma loop_body_failed_kept self data v item l :
  (validate v data).1 = false ->
  drop_items_with_errors self = false ->
  annotatable self item = true ->
  loop_body self data v {| item_obj := item; log := l |}
  = (Return tt,
     {| item_obj := annotate_all self [(validate v data).2] item;
        log := l ++ validator_calls v data |}).
Proof.
  intros Hok Hdrop Hann. unfold loop_body, validator_calls, annotate_all.
  unfold call_validate, bind at 1 2. unfold emit, modify, ret. simpl.
  destruct (validate v data) as [ok errors]. simpl in *. subst ok. simpl.
  unfold bind at 1. rewrite report_field_errors.
  unfold bind at 1. unfold stats, emit, modify. simpl.
  rewrite Hdrop. unfold annotatable in Hann.
  destruct (add_errors_to_items self); simpl in *.
  - unfold bind. rewrite add_errors_to_item_run by done. simpl. unfold ret.
    now rewrite <- !app_assoc.
  - unfold bind, ret. simpl. now rewrite <- !app_assoc.
Qed.

Lemma failures_cons_ok data v vs :
  (validate v data).1 = true -> failures data (v :: vs) = failures data vs.
Proof. intros H. unfold failures. simpl. now rewrite H. Qed.

Lemma failures_cons_failed data v vs :
  (validate v data).1 = false ->
  failures data (v :: vs) = (validate v data).2 :: failures data vs.
Proof. intros H. unfold failures. simpl. now rewrite H. Qed.

(** An item that can take the annotation still can after it. *)
Lemma annotatable_annotate_all self es item :
  annotatable self item = true ->
  annotatable self (annotate_all self es item) = true.
Proof.
  unfold annotatable, annotate_all.
  destruct (add_errors_to_items self); [|done]. cbn [negb orb].
  revert item. induction es as [|e es IH]; intros item Hitem; [done|].
  cbn [fold_left]. apply IH. apply annotated_holds_messages.
Qed.

Lemma annotate_all_cons self e es item :
  annotate_all self (e :: es) item
  = annotate_all self es (annotate_all self [e] item).
Proof. unfold annotate_all. now destruct (add_errors_to_items self). Qed.

Lemma annotate_all_nil self item : annotate_all self [] item = item.
Proof. unfold annotate_all. now destruct (add_errors_to_items self). Qed.

Lemma validate_loop_kept self data vs : forall item l,
  drop_items_with_errors self = false ->
  annotatable self item = true ->
  for_each vs (loop_body self data) {| item_obj := item; log := l |}
  = (Return tt,
     {| item_obj := annotate_all self (failures data vs) item;
        log := l ++ flat_map (fun v => validator_calls v data) vs |}).
Proof.
  induction vs as [|v vs IH]; intros item l Hdrop Hann.
  - simpl. unfold ret. now rewrite app_nil_r, annotate_all_nil.
  - cbn [for_each flat_map]. rewrite app_assoc.
    destruct ((validate v data).1) eqn:Hok.
    + rewrite (bind_Return _ _ _ _ _ (loop_body_ok self data v item l Hok)).
      rewrite failures_cons_ok by done. now apply IH.
    + rewrite (bind_Return _ _ _ _ _
                 (loop_body_failed_kept self data v item l Hok Hdrop Hann)).
      rewrite failures_cons_failed by done.
      rewrite IH; [|done|now apply annotatable_annotate_all].
      now rewrite <- annotate_all_cons.
Qed.

Lemma loop_body_failed_dropped self data v item l :
  (validate v data).1 = false ->
  drop_items_with_errors self = true ->
  annotatable self item = true ->
  loop_body self data v {| item_obj := item; log := l |}
  = (Raise (DropItem "Validation failed!"),
     {| item_obj := annotate_all self [(validate v data).2] item;
        log := l ++ Validate v data :: field_error_calls (validate v data).2
                 ++ [Stat add_item_with_errors; Stat add_dropped_item] |}).
Proof.
  intros Hok Hdrop Hann. unfold loop_body, annotate_all.
  unfold call_validate, bind at 1 2. unfold emit, modify, ret. simpl.
  destruct (validate v data) as [ok errors]. simpl in *. subst ok. simpl.
  unfold bind at 1. rewrite report_field_errors.
  unfold bind at 1. unfold stats, emit, modify. simpl.
  rewrite Hdrop. unfold annotatable in Hann.
  destruct (add_errors_to_items self); simpl in *.
  - unfold bind. rewrite add_errors_to_item_run by done. simpl. unfold raise.
    now rewrite <- !app_assoc.
  - unfold bind, ret, raise. simpl. now rewrite <- !app_assoc.
Qed.

(** *** The loop on any item *)

(** One turn of the loop on any item.  The statistics calls of lines
    105-108 come before the annotation of line 110, so they are made
    however the annotation ends. *)
Lemma loop_body_any self data v item l :
  exists o item',
    loop_body self data v {| item_obj := item; log := l |}
    = (o, {| item_obj := item';
             log := l ++ validator_calls v data
                      ++ (if is_drop o then [Stat add_dropped_item] else []) |})
    /\ touched_only (errors_field self) item item'
    /\ (add_errors_to_items self = false -> item' = item)
    /\ ((validate v data).1 = true -> o = Return tt /\ item' = item)
    /\ ((validate v data).1 = false -> turn_ends self o).
Proof.
  destruct ((validate v data).1) eqn:Hok.
  { exists (Return tt), item. rewrite (loop_body_ok self data v item l Hok).
    cbn [is_drop]. rewrite app_nil_r.
    split; [done|]. split; [apply touched_only_refl|].
    split; [done|]. split; [done|discriminate]. }
  unfold loop_body, validator_calls, turn_ends.
  unfold call_validate, bind at 1 2. unfold emit, modify, ret. simpl.
  destruct (validate v data) as [ok errors]. simpl in *. subst ok. simpl.
  unfold bind at 1. rewrite report_field_errors.
  unfold bind at 1. unfold stats, emit, modify. simpl.
  destruct (add_errors_to_items self) eqn:Hadd; cbn [when].
  - destruct (add_errors_to_item_any self errors item
                (((l ++ [Validate v data]) ++ field_error_calls errors)
                   ++ [Stat add_item_with_errors]))
      as (oa & item_a & Hrun & Hoa & Htouch).
    unfold bind at 1. rewrite Hrun. clear Hrun. destruct oa as [[]|e].
    + destruct (drop_items_with_errors self) eqn:Hdrop; cbn [when].
      * exists (Raise (DropItem "Validation failed!")), item_a.
        unfold bind, raise. simpl. rewrite <- !app_assoc. simpl.
        split; [done|]. split; [done|].
        split; [discriminate|]. split; [discriminate|done].
      * exists (Return tt), item_a. unfold ret. simpl.
        rewrite app_nil_r, <- !app_assoc.
        split; [done|]. split; [done|].
        split; [discriminate|]. split; [discriminate|done].
    + exists (Raise e), item_a.
      assert (He : subscript_error e) by now apply Hoa.
      assert (Hnot : is_drop (@Raise unit e) = false).
      { destruct He as [->|[k ->]]; reflexivity. }
      rewrite Hnot, app_nil_r, <- !app_assoc.
      split; [done|]. split; [done|].
      split; [discriminate|]. split; [discriminate|].
      intros _. destruct He as [->|[k ->]]; (split; [done|]);
        [now left|right; eauto].
  - unfold bind at 1. unfold ret at 1.
    destruct (drop_items_with_errors self) eqn:Hdrop; cbn [when].
    + exists (Raise (DropItem "Validation failed!")), item.
      unfold bind, raise. simpl. rewrite <- !app_assoc. simpl.
      split; [done|]. split; [apply touched_only_refl|].
      split; [done|]. split; [discriminate|done].
    + exists (Return tt), item. unfold ret. simpl. rewrite <- !app_assoc. simpl.
      split; [done|]. split; [apply touched_only_refl|].
      split; [done|]. split; [discriminate|done].
Qed.

(** The loop of [process_item] on any item: it invokes an initial run
    [ran] of the validators and makes for each of them the calls of
    [validator_calls], then [add_dropped_item] if it ends in [DropItem];
    the item is touched at the errors field only. *)
Lemma validate_loop_any self data vs : forall item l,
  exists ran o item',
    for_each vs (loop_body self data) {| item_obj := item; log := l |}
    = (o, {| item_obj := item';
             log := l ++ flat_map (fun v => validator_calls v data) ran
                      ++ (if is_drop o then [Stat add_dropped_item] else []) |})
    /\ loop_ends self data vs ran o
    /\ touched_only (errors_field self) item item'
    /\ (add_errors_to_items self = false -> item' = item)
    /\ (failures data ran = [] -> item' = item).
Proof.
  induction vs as [|v vs IH]; intros item l.
  { exists [], (Return tt), item. simpl. unfold ret. rewrite app_nil_r.
    split; [done|]. split; [by repeat split|].
    split; [apply touched_only_refl|]. done. }
  destruct (loop_body_any self data v item l)
    as (o1 & item1 & Hrun1 & Htouch1 & Hoff1 & Hok1 & Hfail1).
  cbn [for_each]. unfold bind. rewrite Hrun1.
  destruct o1 as [[]|e1].
  - cbn [is_drop] in *. rewrite app_nil_r.
    destruct (IH item1 (l ++ validator_calls v data))
      as (ran & o & item' & Hrun & Hends & Htouch & Hoff & Hnone).
    destruct Hends as (Hpre & Hthrough & Hstop & Hends).
    exists (v :: ran), o, item'. rewrite Hrun. cbn [flat_map].
    rewrite <- !app_assoc. split; [done|].
    split; [|split; [now apply (touched_only_trans _ item item1 item')|split]].
    + unfold loop_ends. cbn [through_first_failure].
      destruct ((validate v data).1) eqn:Hok.
      * rewrite !failures_cons_ok by done.
        split; [now apply prefix_cons|]. split; [now apply prefix_cons|].
        split; [intros Hdrop; now rewrite (Hstop Hdrop)|].
        destruct o as [[]|[]]; try exact Hends.
        destruct Hends as [-> Hall]. done.
      * assert (Hdrop : drop_items_with_errors self = false) by now apply Hfail1.
        rewrite (failures_cons_failed data v ran) by done.
        split; [now apply prefix_cons|].
        split; [apply prefix_cons, prefix_nil|].
        split; [congruence|].
        destruct o as [[]|[]];
          try (destruct Hends as (? & ? & ?); split; [done|]; split; done).
        -- destruct Hends as [-> Hall]. split; [done|]. congruence.
        -- destruct Hends as (_ & Hdrop' & _). congruence.
    + intros Hadd. rewrite (Hoff Hadd). now apply Hoff1.
    + intros Hnone'. destruct ((validate v data).1) eqn:Hok.
      * rewrite failures_cons_ok in Hnone' by done.
        rewrite (Hnone Hnone'). now apply Hok1.
      * now rewrite failures_cons_failed in Hnone'.
  - destruct ((validate v data).1) eqn:Hok.
    { destruct (Hok1 eq_refl) as [? _]. discriminate. }
    specialize (Hfail1 eq_refl). unfold turn_ends in Hfail1.
    exists [v], (Raise e1), item1. cbn [flat_map]. rewrite app_nil_r.
    split; [done|].
    split; [|split; [done|split; [done|]]].
    + unfold loop_ends. cbn [through_first_failure]. rewrite Hok.
      rewrite !failures_cons_failed by done.
      split; [apply prefix_cons, prefix_nil|]. split; [done|]. split; [done|].
      destruct e1; destruct Hfail1; (split; [done|]); split; done.
    + now rewrite failures_cons_failed.
Qed.

(** ** Counting in logs *)

Lemma calls_of_app c (a b : list Event) :
  calls_of c (a ++ b) = calls_of c a + calls_of c b.
Proof. unfold calls_of. now rewrite List.filter_app, List.length_app. Qed.

Lemma calls_of_field_errors c (errors : Errors) :
  (forall f m, c (add_field_error f m) = false) ->
  calls_of c (field_error_calls errors) = 0.
Proof.
  intros Hc. unfold field_error_calls.
  induction errors as [|[f ms] es IH]; simpl; [done|].
  rewrite calls_of_app, IH, Nat.add_0_r. clear IH.
  induction ms as [|m ms IH]; [done|].
  unfold calls_of in *. simpl. now rewrite Hc.
Qed.

Lemma invocations_app (a b : list Event) :
  invocations (a ++ b) = invocations a ++ invocations b.
Proof. apply omap_app. Qed.

Lemma invocations_field_errors (errors : Errors) :
  invocations (field_error_calls errors) = [].
Proof.
  unfold field_error_calls.
  induction errors as [|[f ms] es IH]; simpl; [done|].
  rewrite invocations_app, IH, app_nil_r.
  now induction ms.
Qed.

Lemma calls_of_validator_calls v data :
  calls_of is_add_item_with_errors (validator_calls v data)
  = if (validate v data).1 then 0 else 1.
Proof.
  unfold validator_calls. destruct ((validate v data).1); [done|].
  change (Validate v data :: ?l) with ([Validate v data] ++ l).
  rewrite !calls_of_app, calls_of_field_errors; done.
Qed.

Lemma calls_of_loop data vs :
  calls_of is_add_item_with_errors
    (flat_map (fun v => validator_calls v data) vs)
  = List.length (failures data vs).
Proof.
  induction vs as [|v vs IH]; [done|].
  cbn [flat_map]. rewrite calls_of_app, calls_of_validator_calls, IH.
  destruct ((validate v data).1) eqn:Hok.
  - now rewrite failures_cons_ok.
  - now rewrite failures_cons_failed.
Qed.

Lemma length_failures data vs :
  List.length (failures data vs)
  = List.length (List.filter (fun v => negb (validate v data).1) vs).
Proof.
  induction vs as [|v vs IH]; [done|].
  destruct ((validate v data).1) eqn:Hok.
  - rewrite failures_cons_ok by done. simpl. now rewrite Hok.
  - rewrite failures_cons_failed by done. simpl. rewrite Hok. simpl.
    now f_equal.
Qed.

Lemma invocations_loop data vs :
  invocations (flat_map (fun v => validator_calls v data) vs)
  = map (fun v => (v, data)) vs.
Proof.
  induction vs as [|v vs IH]; [done|].
  cbn [flat_map map]. rewrite invocations_app, IH. f_equal.
  unfold validator_calls.
  destruct ((validate v data).1); [done|].
  change (Validate v data :: ?l) with ([Validate v data] ++ l).
  now rewrite !invocations_app, invocations_field_errors.
Qed.

(** ** Dispatch *)

Lemma no_export_validator_calls data vs :
  Forall (fun e => forall i, e <> Export i)
         (flat_map (fun v => validator_calls v data) vs).
Proof.
  induction vs as [|v vs IH]; [constructor|]. cbn [flat_map].
  apply Forall_app. split; [|done]. unfold validator_calls.
  constructor; [done|]. destruct ((validate v data).1); [constructor|].
  apply Forall_app. split; [|repeat constructor; done].
  unfold field_error_calls. apply Forall_forall. intros e He.
  apply list_elem_of_In, in_flat_map in He as (entry & _ & He).
  apply in_map_iff in He as (m & <- & _). done.
Qed.

Lemma calls_of_loop_none (c : StatCall -> bool) data vs :
  (forall f m, c (add_field_error f m) = false) ->
  c add_item_with_errors = false ->
  calls_of c (flat_map (fun v => validator_calls v data) vs) = 0.
Proof.
  intros Hfield Hitem. induction vs as [|v vs IH]; [done|].
  cbn [flat_map]. rewrite calls_of_app, IH. unfold validator_calls.
  destruct ((validate v data).1); [done|].
  change (Validate v data :: ?l) with ([Validate v data] ++ l).
  rewrite !calls_of_app, calls_of_field_errors by done.
  unfold calls_of. simpl. now rewrite Hitem.
Qed.

Lemma failures_all_ok data vs :
  Forall (fun u => (validate u data).1 = true) vs -> failures data vs = [].
Proof.
  induction 1 as [|u vs Hu _ IH]; [done|]. now rewrite failures_cons_ok.
Qed.

Section Dispatch.

Variable exported : Item -> Data.

Lemma dispatch_unfold (self : ItemValidationPipeline) (item : Item) log0 :
  dispatch exported self item log0 =
  match for_each (find_validators self item) (loop_body self (exported item))
          {| item_obj := item; log := log0 ++ preamble exported item |} with
  | (Return _, r) => (Return (item_obj r), r)
  | (Raise e, r) => (Raise e, r)
  end.
Proof.
  unfold dispatch. rewrite process_item_unfold.
  unfold _convert_item_to_dict, stats, emit, the_item, modify, bind at 1 2 3 4 5 6.
  unfold ret. simpl. rewrite <- !app_assoc. simpl.
  unfold bind.
  destruct (for_each _ _ _) as [[[]|e] r]; reflexivity.
Qed.

Lemma dispatch_kept (self : ItemValidationPipeline) (item : Item) log0 :
  drop_items_with_errors self = false ->
  annotatable self item = true ->
  let data := exported item in
  let vs := find_validators self item in
  dispatch exported self item log0 =
  (Return (annotate_all self (failures data vs) item),
   {| item_obj := annotate_all self (failures data vs) item;
      log := log0 ++ preamble exported item
               ++ flat_map (fun v => validator_calls v data) vs |}).
Proof.
  intros Hdrop Hann data vs. rewrite dispatch_unfold.
  fold data vs. rewrite validate_loop_kept by done. simpl.
  now rewrite <- !app_assoc.
Qed.

(** A dispatch on any item, whatever it holds under the errors field. *)
Lemma dispatch_any (self : ItemValidationPipeline) (item : Item) log0 :
  let data := exported item in
  let vs := find_validators self item in
  exists ran (o : outcome Item) item',
    dispatch exported self item log0
    = (o, {| item_obj := item';
             log := log0 ++ preamble exported item
                      ++ flat_map (fun v => validator_calls v data) ran
                      ++ (if is_drop o then [Stat add_dropped_item] else []) |})
    /\ loop_ends self data vs ran o
    /\ (forall i, o = Return i -> i = item')
    /\ touched_only (errors_field self) item item'
    /\ (add_errors_to_items self = false -> item' = item)
    /\ (failures data ran = [] -> item' = item)
    /\ (annotatable self item = true ->
        ran = if drop_items_with_errors self
              then through_first_failure data vs else vs).
Proof.
  intros data vs.
  destruct (validate_loop_any self data vs item (log0 ++ preamble exported item))
    as (ran & o & item' & Hrun & Hends & Htouch & Hoff & Hnone).
  assert (Hran : annotatable self item = true ->
                 ran = if drop_items_with_errors self
                       then through_first_failure data vs else vs).
  { intros Hann. destruct Hends as (_ & _ & Hstop & Hends).
    destruct (drop_items_with_errors self) eqn:Hdrop; [now apply Hstop|].
    rewrite validate_loop_kept in Hrun by done.
    destruct o as [[]|e]; [now destruct Hends|discriminate]. }
  rewrite dispatch_unfold. fold data vs. rewrite Hrun.
  destruct o as [[]|e].
  - exists ran, (Return item'), item'. cbn [item_obj is_drop] in *.
    rewrite <- !app_assoc. split; [done|]. split; [exact Hends|].
    split; [|done]. intros i Hi. now inversion Hi.
  - exists ran, (Raise e), item'.
    rewrite <- !app_assoc. split; [done|]. split; [exact Hends|].
    split; [|done]. discriminate.
Qed.

(** C5. With both the annotate and the drop switch off, a dispatch
    returns the record it was given, unchanged, and raises nothing; its
    outgoing calls are the three opening calls followed, validator by
    validator, by the invocation and, for a failing validator, one
    [add_field_error] per field and message (messages in list order) and
    one [add_item_with_errors]. *)
Theorem observation_mode (self : ItemValidationPipeline) (item : Item) log0 :
  add_errors_to_items self = false ->
  drop_items_with_errors self = false ->
  let data := exported item in
  dispatch exported self item log0 =
    (Return item,
     {| item_obj := item;
        log := log0 ++ preamble exported item
                 ++ flat_map (fun v => validator_calls v data)
                             (find_validators self item) |})
  /\ forall v, (validate v data).1 = false ->
       validator_calls v data =
         Validate v data
         :: flat_map (fun entry : string * list string =>
                        map (fun message =>
                               Stat (add_field_error entry.1 message)) entry.2)
                     (validate v data).2
         ++ [Stat add_item_with_errors].
Proof.
  intros Hadd Hdrop data. split.
  - rewrite dispatch_kept; [|done|unfold annotatable; now rewrite Hadd].
    unfold annotate_all. now rewrite Hadd.
  - intros v Hv. unfold validator_calls. now rewrite Hv.
Qed.

(** C6. A record whose type has no registered validators, with no
    universal validators registered, is returned unchanged; the dispatch
    makes exactly three outgoing calls: the export, one [add_item] and one
    [add_fields] with the number of fields of the converted mapping; it
    reports no field error, no item with errors and no dropped item. *)
Theorem unregistered_type_passes_through
    (self : ItemValidationPipeline) (item : Item) log0 :
  default [] (validators self !! __name__ (__class__ item)) = [] ->
  default [] (validators self !! __name__ UniversalItem) = [] ->
  let calls := [Export item; Stat add_item;
                Stat (add_fields (size (exported item)))] in
  dispatch exported self item log0 =
    (Return item, {| item_obj := item; log := log0 ++ calls |})
  /\ calls_of is_add_item calls = 1
  /\ calls_of is_add_fields calls = 1
  /\ calls_of is_add_field_error calls = 0
  /\ calls_of is_add_item_with_errors calls = 0
  /\ calls_of is_add_dropped_item calls = 0.
Proof.
  intros Htype Huniversal calls. split; [|done].
  rewrite dispatch_unfold. unfold find_validators.
  rewrite Htype, Huniversal. reflexivity.
Qed.

(** C1 (amended). With the drop switch on and at least two applicable
    validators of which the first fails, the dispatch never returns: the
    first validator is the only one invoked, its errors and one
    [add_item_with_errors] are reported, and the dispatch ends either in
    [DropItem], with [add_dropped_item] called once as the last call
    before the exception, or, when the pipeline annotates, in the
    [TypeError] or [KeyError] that line 133 raises on what the record
    holds under the errors field, and then without [add_dropped_item].
    On a record that can take the annotation (annotation is off, or the
    errors field of the record is unset or holds a mapping of messages) it
    ends in [DropItem], and the record is dropped with the errors of the
    first validator on it when the pipeline annotates. *)
Theorem drop_short_circuit (self : ItemValidationPipeline) (item : Item)
    log0 (v1 v2 : Validator) (rest : list Validator) :
  drop_items_with_errors self = true ->
  find_validators self item = v1 :: v2 :: rest ->
  (validate v1 (exported item)).1 = false ->
  let data := exported item in
  let errors := (validate v1 data).2 in
  let reported :=
    preamble exported item ++ Validate v1 data :: field_error_calls errors
      ++ [Stat add_item_with_errors] in
  let calls := reported ++ [Stat add_dropped_item] in
  (exists e item',
      dispatch exported self item log0
      = (Raise e,
         {| item_obj := item';
            log := log0 ++ (if is_drop (@Raise Item e) then calls else reported) |})
      /\ (e = DropItem "Validation failed!"
          \/ add_errors_to_items self = true /\ subscript_error e))
  /\ invocations reported = [(v1, data)]
  /\ invocations calls = [(v1, data)]
  /\ calls_of is_add_dropped_item reported = 0
  /\ calls_of is_add_dropped_item calls = 1
  /\ last calls = Some (Stat add_dropped_item)
  /\ (annotatable self item = true ->
      dispatch exported self item log0 =
        (Raise (DropItem "Validation failed!"),
         {| item_obj := annotate_all self [errors] item;
            log := log0 ++ calls |})).
Proof.
  intros Hdrop Hvs Hfail data errors reported calls.
  assert (Hinv : invocations reported = [(v1, data)]).
  { subst reported.
    change (Validate v1 data :: ?l) with ([Validate v1 data] ++ l).
    now rewrite !invocations_app, invocations_field_errors. }
  assert (Hnone : calls_of is_add_dropped_item reported = 0).
  { subst reported.
    change (Validate v1 data :: ?l) with ([Validate v1 data] ++ l).
    rewrite !calls_of_app, calls_of_field_errors; done. }
  split; [|split; [exact Hinv|split; [|split; [exact Hnone|split; [|split]]]]].
  - destruct (dispatch_any self item log0)
      as (ran & o & item' & Hrun & Hends & _).
    fold data in Hrun, Hends. rewrite Hvs in Hends.
    destruct Hends as (_ & _ & Hstop & Hends).
    specialize (Hstop Hdrop). cbn [through_first_failure] in Hstop.
    fold data in Hfail. rewrite Hfail in Hstop. subst ran.
    assert (Hcalls : flat_map (fun v => validator_calls v data) [v1]
                     = Validate v1 data :: field_error_calls errors
                         ++ [Stat add_item_with_errors]).
    { cbn [flat_map]. unfold validator_calls. now rewrite Hfail, app_nil_r. }
    rewrite Hcalls in Hrun. clear Hcalls.
    destruct o as [i|e].
    + destruct Hends as [_ Hall]. specialize (Hall Hdrop).
      rewrite failures_cons_failed in Hall by done. discriminate.
    + exists e, item'. rewrite Hrun. split.
      * do 3 f_equal. subst calls reported.
        destruct (is_drop (Raise e)); [|now rewrite app_nil_r].
        now rewrite <- !app_assoc.
      * destruct e; try (right; destruct Hends as (? & ? & _); done).
        left. destruct Hends as (-> & _). done.
  - subst calls. now rewrite invocations_app, Hinv.
  - subst calls. now rewrite calls_of_app, Hnone.
  - subst calls. apply last_snoc.
  - intros Hann. rewrite dispatch_unfold, Hvs. cbn [for_each].
    rewrite (bind_Raise _ _ _ _ _
               (loop_body_failed_dropped self data v1 item _ Hfail Hdrop Hann)).
    subst calls reported errors. do 2 f_equal. rewrite <- !app_assoc.
    simpl. now rewrite <- !app_assoc.
Qed.

(** C3 (amended).  [add_item_with_errors] is called once per validator
    that is invoked and answers not-ok, not once per record, however the
    dispatch ends.  When nothing is dropped and the record can take the
    annotation (annotation is off, or the errors field of the record is
    unset or holds a mapping of messages), every applicable validator is
    invoked, so that the call is made once per failing applicable
    validator: exactly twice when two applicable validators both fail. *)
Theorem item_with_errors_once_per_failing_validator
    (self : ItemValidationPipeline) (item : Item) log0 :
  let data := exported item in
  let vs := find_validators self item in
  (exists ran calls,
      log (dispatch exported self item log0).2 = log0 ++ calls
      /\ invocations calls = map (fun v => (v, data)) ran
      /\ calls_of is_add_item_with_errors calls
         = List.length (List.filter (fun v => negb (validate v data).1) ran))
  /\ (drop_items_with_errors self = false ->
      annotatable self item = true ->
      let calls :=
        preamble exported item ++ flat_map (fun v => validator_calls v data) vs in
      let item' := annotate_all self (failures data vs) item in
      dispatch exported self item log0 =
        (Return item', {| item_obj := item'; log := log0 ++ calls |})
      /\ calls_of is_add_item_with_errors calls
         = List.length (List.filter (fun v => negb (validate v data).1) vs)
      /\ (forall v1 v2, vs = [v1; v2] ->
            (validate v1 data).1 = false -> (validate v2 data).1 = false ->
            calls_of is_add_item_with_errors calls = 2)).
Proof.
  intros data vs. split.
  - destruct (dispatch_any self item log0)
      as (ran & o & item' & Hrun & _).
    fold data in Hrun. rewrite Hrun. cbn [snd log].
    exists ran. eexists. split; [reflexivity|]. unfold preamble. split.
    + rewrite !invocations_app, invocations_loop. cbn.
      destruct (is_drop o); cbn; now rewrite app_nil_r.
    + rewrite !calls_of_app, calls_of_loop, length_failures.
      destruct (is_drop o); cbn; lia.
  - intros Hdrop Hann calls item'.
    assert (Hcount : calls_of is_add_item_with_errors calls
                     = List.length (List.filter (fun v => negb (validate v data).1) vs)).
    { subst calls. rewrite calls_of_app, calls_of_loop. apply length_failures. }
    repeat split.
    + now rewrite dispatch_kept.
    + exact Hcount.
    + intros v1 v2 Hvs H1 H2. rewrite Hcount, Hvs. simpl.
      now rewrite H1, H2.
Qed.

(** C10. The field mapping is computed once, from the record as it
    enters the dispatch and before any validator runs; the validators
    invoked are an initial run of the applicable ones, in lookup order,
    which reaches at least through the first validator that fails (all of
    them when none fails), and each of them is handed that same mapping,
    whatever annotation has done to the record in between.  When nothing
    is dropped and the record can take the annotation, every applicable
    validator is invoked. *)
Theorem validators_see_one_conversion
    (self : ItemValidationPipeline) (item : Item) log0 :
  let data := exported item in
  let vs := find_validators self item in
  exists calls ran,
    log (dispatch exported self item log0).2 = log0 ++ Export item :: calls
    /\ Forall (fun e => forall i, e <> Export i) calls
    /\ invocations calls = map (fun v => (v, data)) ran
    /\ ran `prefix_of` vs
    /\ through_first_failure data vs `prefix_of` ran
    /\ (drop_items_with_errors self = false ->
        annotatable self item = true -> ran = vs).
Proof.
  intros data vs.
  destruct (dispatch_any self item log0)
    as (ran & o & item' & Hrun & Hends & _).
  fold data vs in Hrun, Hends.
  destruct Hends as (Hpre & Hthrough & _ & Hends).
  exists ([Stat add_item; Stat (add_fields (size data))]
            ++ flat_map (fun v => validator_calls v data) ran
            ++ (if is_drop o then [Stat add_dropped_item] else [])), ran.
  split; [now rewrite Hrun|]. split; [|split; [|split; [done|split; [done|]]]].
  - apply Forall_app. split; [repeat constructor; done|].
    apply Forall_app. split; [apply no_export_validator_calls|].
    destruct (is_drop o); repeat constructor; done.
  - rewrite !invocations_app, invocations_loop. cbn.
    destruct (is_drop o); cbn; now rewrite app_nil_r.
  - intros Hdrop Hann. rewrite dispatch_kept in Hrun by done.
    destruct o as [i|e]; [now destruct Hends|discriminate].
Qed.

(** C4 (amended). With annotation on and drop off, when two validators
    fail on a record, with errors [{"a": ["bad1"]}] and
    [{"a": ["bad2"], "b": ["bad3"]}] in that order, and the errors field
    of the record is unset or holds a mapping of messages, the errors
    field afterwards holds what it held on entry with the messages of the
    first and then of the second validator appended; for a record that
    carries no messages on entry it is
    [{"a": ["bad1", "bad2"], "b": ["bad3"]}].  The other fields of the
    record are as they were. *)
Theorem errors_accumulate_in_validator_order
    (self : ItemValidationPipeline) (item : Item) log0 (e2 : Errors) :
  add_errors_to_items self = true ->
  drop_items_with_errors self = false ->
  holds_messages (_values item !! errors_field self) = true ->
  failures (exported item) (find_validators self item)
    = [[("a", ["bad1"])]; e2] ->
  e2 ≡ₚ [("a", ["bad2"]); ("b", ["bad3"])] ->
  exists item' log',
    dispatch exported self item log0
      = (Return item', {| item_obj := item'; log := log' |})
    /\ _values item' !! errors_field self
       = Some (VErrors
                 (merge_errors e2
                    (merge_errors [("a", ["bad1"])]
                       (prior_messages (errors_field self) item))))
    /\ (prior_messages (errors_field self) item = ∅ ->
        _values item' !! errors_field self
        = Some (VErrors {[ "a" := ["bad1"; "bad2"]; "b" := ["bad3"] ]}))
    /\ (forall k, k <> errors_field self ->
          _values item' !! k = _values item !! k).
Proof.
  intros Hadd Hdrop Hslot Hfail Hperm.
  assert (Hann : annotatable self item = true).
  { unfold annotatable. rewrite Hslot. apply orb_true_r. }
  eexists _, _. split; [now apply dispatch_kept|].
  rewrite Hfail. unfold annotate_all. rewrite Hadd. cbn [fold_left].
  set (ef := errors_field self).
  assert (Hentry :
    _values (annotated ef e2 (annotated ef [("a", ["bad1"])] item)) !! ef
    = Some (VErrors (merge_errors e2
                       (merge_errors [("a", ["bad1"])] (prior_messages ef item))))).
  { cbn [annotated _values]. rewrite lookup_insert_eq.
    unfold prior_messages at 1. cbn [annotated _values].
    now rewrite lookup_insert_eq. }
  split; [exact Hentry|]. split.
  - intros Hprior. rewrite Hentry, Hprior. do 2 f_equal.
    symmetry in Hperm. apply Permutation_length_2_inv in Hperm.
    destruct Hperm as [-> | ->]; reflexivity.
  - intros k Hk. cbn [annotated _values]. now rewrite !lookup_insert_ne.
Qed.

End Dispatch.

(** ** Registry lookup *)

(** C2. The lookup answers the validators registered for the record's
    type name followed by those registered for the universal type, each
    list as the registry holds it; a name the registry does not hold
    contributes the empty list. *)
Theorem lookup_type_specific_then_universal
    (self : ItemValidationPipeline) (item : Item) :
  (forall ts us,
      validators self !! __name__ (__class__ item) = Some ts ->
      validators self !! __name__ UniversalItem = Some us ->
      find_validators self item = ts ++ us
      /\ (forall i t, ts !! i = Some t -> find_validators self item !! i = Some t)
      /\ (forall j u, us !! j = Some u ->
            find_validators self item !! (List.length ts + j) = Some u))
  /\ (forall ts,
        validators self !! __name__ (__class__ item) = Some ts ->
        validators self !! __name__ UniversalItem = None ->
        find_validators self item = ts)
  /\ (forall us,
        validators self !! __name__ (__class__ item) = None ->
        validators self !! __name__ UniversalItem = Some us ->
        find_validators self item = us)
  /\ (validators self !! __name__ (__class__ item) = None ->
      validators self !! __name__ UniversalItem = None ->
      find_validators self item = []).
Proof.
  unfold find_validators. split; [|split; [|split]].
  - intros ts us Hts Hus. rewrite Hts, Hus. simpl. split; [done|]. split.
    + intros i t Ht. now apply lookup_app_l_Some.
    + intros j u Hu. rewrite lookup_app_r by lia.
      now replace (_ + j - _) with j by lia.
  - intros ts Hts Hus. rewrite Hts, Hus. simpl. apply app_nil_r.
  - intros us Hts Hus. now rewrite Hts, Hus.
  - intros Hts Hus. now rewrite Hts, Hus.
Qed.

(** ** Registration *)

Lemma comprehension_load (loader : pyobj -> outcome Validator) paths
    (reg : gmap string (list Validator)) :
  comprehension (fun v => lift (loader v)) paths reg = (load_all loader paths, reg).
Proof.
  induction paths as [|v paths IH]; simpl; [done|].
  unfold bind at 1. unfold lift at 1.
  destruct (loader v) as [x|e]; [|done].
  unfold bind. rewrite IH. now destruct (load_all loader paths).
Qed.

Lemma load_all_app loader paths1 paths2 xs1 xs2 :
  load_all loader paths1 = Return xs1 ->
  load_all loader paths2 = Return xs2 ->
  load_all loader (paths1 ++ paths2) = Return (xs1 ++ xs2).
Proof.
  revert xs1. induction paths1 as [|v paths1 IH]; intros xs1 H1 H2; simpl in *.
  - now inversion H1.
  - destruct (loader v) as [x|e]; [|discriminate].
    destruct (load_all loader paths1) as [xs|e]; [|discriminate].
    inversion H1; subst. now rewrite (IH xs eq_refl H2).
Qed.

Lemma set_validators_dict loader entries :
  set_validators loader (PyDict entries) = for_each entries (register_entry loader).
Proof. reflexivity. Qed.

Lemma set_validators_entries loader schema :
  bool_decide (type schema ∈ [list_t; tuple_t; dict_t]) = true ->
  set_validators loader schema
  = for_each (entries_of schema) (register_entry loader).
Proof. destruct schema; simpl; intros H; try discriminate; reflexivity. Qed.

(** One entry: the validators loaded for it go after the list the registry
    holds for its key. *)
Lemma register_entry_run loader (c : class) paths objects
    (reg : gmap string (list Validator)) :
  load_all loader (normalized paths) = Return objects ->
  register_entry loader (PyClass c, paths) reg
  = (Return tt,
     <[__name__ c := default [] (reg !! __name__ c) ++ objects]> reg).
Proof.
  intros Hload. unfold register_entry. unfold bind at 1. unfold lift at 1.
  cbn [getattr__name__]. fold (normalized paths). unfold bind.
  now rewrite comprehension_load, Hload.
Qed.

Lemma register_entry_Return loader obj paths
    (reg reg' : gmap string (list Validator)) :
  register_entry loader (obj, paths) reg = (Return tt, reg') ->
  exists c objects,
    obj = PyClass c
    /\ load_all loader (normalized paths) = Return objects
    /\ reg' = <[__name__ c := default [] (reg !! __name__ c) ++ objects]> reg.
Proof.
  unfold register_entry. unfold bind at 1. unfold lift at 1.
  destruct obj as [| | | | | |c]; try (simpl; discriminate).
  cbn [getattr__name__]. fold (normalized paths). unfold bind, modify.
  rewrite comprehension_load.
  destruct (load_all loader (normalized paths)) as [objects|e]; [|discriminate].
  intros H. inversion H. now exists c, objects.
Qed.

Lemma registered_after_entries loader entries :
  forall reg reg' : gmap string (list Validator),
  for_each entries (register_entry loader) reg = (Return tt, reg') ->
  forall key, exists news,
    load_all loader (declared_for key entries) = Return news
    /\ default [] (reg' !! key) = default [] (reg !! key) ++ news.
Proof.
  induction entries as [|[obj paths] entries IH]; intros reg reg' Hrun key.
  - simpl in Hrun. inversion Hrun. exists []. now rewrite app_nil_r.
  - cbn [for_each] in Hrun. unfold bind in Hrun.
    destruct (register_entry loader (obj, paths) reg) as [[[]|e] reg1] eqn:Hentry;
      [|discriminate].
    apply register_entry_Return in Hentry as (c & objects & -> & Hload & ->).
    destruct (IH _ _ Hrun key) as (news & Hnews & Hkey).
    unfold declared_for. cbn [flat_map fst snd]. fold (declared_for key entries).
    destruct (String.eqb_spec (__name__ c) key) as [<-|Hne].
    + exists (objects ++ news). split; [now apply load_all_app|].
      rewrite Hkey, lookup_insert_eq. simpl. now rewrite app_assoc.
    + exists news. split; [done|].
      now rewrite Hkey, lookup_insert_ne.
Qed.

Lemma load_source_Return loader name res
    (reg reg' : gmap string (list Validator)) :
  load_source loader name res reg = (Return tt, reg') ->
  forall key, exists news,
    load_all loader (declared_for key (source_entries res)) = Return news
    /\ default [] (reg' !! key) = default [] (reg !! key) ++ news.
Proof.
  unfold load_source, source_entries, allowed_types.
  destruct (truthy res); simpl.
  - destruct (bool_decide (type res ∈ [list_t; tuple_t; dict_t])) eqn:Hty; simpl.
    + rewrite set_validators_entries by done. apply registered_after_entries.
    + discriminate.
  - intros H key. inversion H. exists []. now rewrite app_nil_r.
Qed.

Lemma load_source_wrong loader name res (reg : gmap string (list Validator)) :
  wrong_container res = true ->
  load_source loader name res reg
  = (Raise (NotConfigured (invalid_type_message res name)), reg).
Proof.
  unfold wrong_container, load_source, allowed_types.
  intros [Htruthy Hty]%andb_true_iff. now rewrite Htruthy, Hty.
Qed.

(** C7. Registration appends.  Whatever list the registry holds for a type
    name when [set_validators] starts, the validators loaded from the
    declarations made for that name, in declaration order, are put after
    it; so the registry [from_crawler] builds holds, for every type name,
    the validators of the schemas setting followed by those of the models
    setting. *)
Theorem registration_appends :
  (forall loader schema (reg reg' : gmap string (list Validator)),
      set_validators loader schema reg = (Return tt, reg') ->
      forall key, exists news,
        load_all loader (declared_for key (entries_of schema)) = Return news
        /\ default [] (reg' !! key) = default [] (reg !! key) ++ news)
  /\ (forall read_json_file load_object json_loads JSONSchemaValidator
             SchematicsValidator crawler (reg : gmap string (list Validator)),
        load_settings read_json_file load_object json_loads JSONSchemaValidator
          SchematicsValidator crawler ∅ = (Return tt, reg) ->
        forall key, exists from_schemas from_models,
          load_all (_load_jsonschema_validator read_json_file load_object
                      json_loads JSONSchemaValidator)
            (declared_for key
               (source_entries (SPIDERMON_VALIDATION_SCHEMAS crawler)))
            = Return from_schemas
          /\ load_all (_load_schematics_validator load_object SchematicsValidator)
               (declared_for key
                  (source_entries (SPIDERMON_VALIDATION_MODELS crawler)))
             = Return from_models
          /\ default [] (reg !! key) = from_schemas ++ from_models).
Proof.
  split.
  - intros loader schema reg reg' Hrun.
    destruct (bool_decide (type schema ∈ [list_t; tuple_t; dict_t])) eqn:Hty.
    + rewrite set_validators_entries in Hrun by done.
      now apply registered_after_entries.
    + destruct schema; simpl in Hty; discriminate.
  - intros read_json_file load_object json_loads JSONSchemaValidator
      SchematicsValidator crawler reg Hrun key.
    unfold load_settings in Hrun. cbn [for_each] in Hrun.
    fold (load_source
            (_load_jsonschema_validator read_json_file load_object json_loads
               JSONSchemaValidator)
            "SPIDERMON_VALIDATION_SCHEMAS"
            (SPIDERMON_VALIDATION_SCHEMAS crawler)) in Hrun.
    fold (load_source
            (_load_schematics_validator load_object SchematicsValidator)
            "SPIDERMON_VALIDATION_MODELS"
            (SPIDERMON_VALIDATION_MODELS crawler)) in Hrun.
    unfold bind in Hrun.
    destruct (load_source _ "SPIDERMON_VALIDATION_SCHEMAS" _ ∅)
      as [[[]|e1] reg1] eqn:H1; [|discriminate].
    destruct (load_source _ "SPIDERMON_VALIDATION_MODELS" _ reg1)
      as [[[]|e2] reg2] eqn:H2; [|discriminate].
    inversion Hrun; subst reg2.
    destruct (load_source_Return _ _ _ _ _ H1 key) as (vs1 & Hvs1 & Hreg1).
    destruct (load_source_Return _ _ _ _ _ H2 key) as (vs2 & Hvs2 & Hreg2).
    exists vs1, vs2. repeat split; [done..|].
    rewrite Hreg2, Hreg1. now rewrite lookup_empty.
Qed.

(** ** Construction *)

Section ConstructionFacts.

Variable order : dict_order.
Variable read_json_file : string -> outcome pyobj.
Variable load_object : pyobj -> outcome pyobj.
Variable json_loads : string -> outcome pyobj.
Variable JSONSchemaValidator : pyobj -> Validator.
Variable SchematicsValidator : class -> Validator.

#[local] Abbreviation schema_loader :=
  (_load_jsonschema_validator read_json_file load_object json_loads
     JSONSchemaValidator).
#[local] Abbreviation model_loader :=
  (_load_schematics_validator load_object SchematicsValidator).
#[local] Abbreviation build :=
  (load_settings read_json_file load_object json_loads JSONSchemaValidator
     SchematicsValidator).
#[local] Abbreviation construct :=
  (from_crawler order read_json_file load_object json_loads
     JSONSchemaValidator SchematicsValidator).

Lemma load_settings_unfold (crawler : Settings) :
  build crawler =
  (load_source schema_loader "SPIDERMON_VALIDATION_SCHEMAS"
     (SPIDERMON_VALIDATION_SCHEMAS crawler) ;;
   load_source model_loader "SPIDERMON_VALIDATION_MODELS"
     (SPIDERMON_VALIDATION_MODELS crawler) ;;
   ret tt).
Proof. reflexivity. Qed.

Lemma from_crawler_Raise (crawler : Settings) e reg log0 :
  build crawler ∅ = (Raise e, reg) ->
  construct crawler log0 = (Raise e, log0).
Proof.
  intros H. unfold from_crawler. now rewrite H.
Qed.

Lemma wrong_schemas_raise (crawler : Settings) :
  wrong_container (SPIDERMON_VALIDATION_SCHEMAS crawler) = true ->
  build crawler ∅ =
  (Raise (NotConfigured
            (invalid_type_message (SPIDERMON_VALIDATION_SCHEMAS crawler)
               "SPIDERMON_VALIDATION_SCHEMAS")), ∅).
Proof.
  intros Hs. rewrite load_settings_unfold.
  apply bind_Raise. now apply load_source_wrong.
Qed.

Lemma wrong_models_raise (crawler : Settings) reg :
  load_source schema_loader "SPIDERMON_VALIDATION_SCHEMAS"
    (SPIDERMON_VALIDATION_SCHEMAS crawler) ∅ = (Return tt, reg) ->
  wrong_container (SPIDERMON_VALIDATION_MODELS crawler) = true ->
  build crawler ∅ =
  (Raise (NotConfigured
            (invalid_type_message (SPIDERMON_VALIDATION_MODELS crawler)
               "SPIDERMON_VALIDATION_MODELS")), reg).
Proof.
  intros Hs Hm. rewrite load_settings_unfold.
  rewrite (bind_Return _ _ _ _ _ Hs).
  apply bind_Raise. now apply load_source_wrong.
Qed.

(** A models setting of the wrong container type: construction raises
    what loading the schemas setting raises, and [NotConfigured] for the
    models setting when the schemas setting loads. *)
Lemma wrong_models_abort (crawler : Settings) log0 :
  wrong_container (SPIDERMON_VALIDATION_MODELS crawler) = true ->
  exists e,
    construct crawler log0 = (Raise e, log0)
    /\ (forall reg,
          load_source schema_loader "SPIDERMON_VALIDATION_SCHEMAS"
            (SPIDERMON_VALIDATION_SCHEMAS crawler) ∅ = (Return tt, reg) ->
          e = NotConfigured
                (invalid_type_message (SPIDERMON_VALIDATION_MODELS crawler)
                   "SPIDERMON_VALIDATION_MODELS"))
    /\ (forall e' reg,
          load_source schema_loader "SPIDERMON_VALIDATION_SCHEMAS"
            (SPIDERMON_VALIDATION_SCHEMAS crawler) ∅ = (Raise e', reg) ->
          e = e').
Proof.
  intros Hm.
  destruct (load_source schema_loader "SPIDERMON_VALIDATION_SCHEMAS"
              (SPIDERMON_VALIDATION_SCHEMAS crawler) ∅)
    as [[[]|e] reg] eqn:Hrun.
  - eexists. split; [|split].
    + eapply from_crawler_Raise, wrong_models_raise; eassumption.
    + done.
    + discriminate.
  - exists e. split; [|split].
    + eapply from_crawler_Raise. rewrite load_settings_unfold.
      eapply bind_Raise. exact Hrun.
    + discriminate.
    + intros e' reg' H. now inversion H.
Qed.

(** C9 (amended). A declaration setting that is set but is neither a
    list, a tuple nor a dict makes construction fail: [from_crawler]
    raises, returns no pipeline and has told the statistics manager
    nothing.  For the schemas setting the exception is [NotConfigured],
    with the message of line 62.  The models setting is looked at after
    the schemas setting has been loaded: the exception is [NotConfigured]
    for the models setting when the schemas setting loads, and otherwise
    the exception that loading the schemas setting raises. *)
Theorem wrong_container_aborts_construction (crawler : Settings) log0 :
  wrong_container (SPIDERMON_VALIDATION_SCHEMAS crawler) = true
  \/ wrong_container (SPIDERMON_VALIDATION_MODELS crawler) = true ->
  exists e,
    construct crawler log0 = (Raise e, log0)
    /\ (wrong_container (SPIDERMON_VALIDATION_SCHEMAS crawler) = true ->
        e = NotConfigured
              (invalid_type_message (SPIDERMON_VALIDATION_SCHEMAS crawler)
                 "SPIDERMON_VALIDATION_SCHEMAS"))
    /\ (forall reg,
          load_source schema_loader "SPIDERMON_VALIDATION_SCHEMAS"
            (SPIDERMON_VALIDATION_SCHEMAS crawler) ∅ = (Return tt, reg) ->
          e = NotConfigured
                (invalid_type_message (SPIDERMON_VALIDATION_MODELS crawler)
                   "SPIDERMON_VALIDATION_MODELS"))
    /\ (forall e' reg,
          load_source schema_loader "SPIDERMON_VALIDATION_SCHEMAS"
            (SPIDERMON_VALIDATION_SCHEMAS crawler) ∅ = (Raise e', reg) ->
          e = e').
Proof.
  intros Hwrong.
  destruct (wrong_container (SPIDERMON_VALIDATION_SCHEMAS crawler)) eqn:Hs.
  - eexists. split; [|split; [|split]].
    + eapply from_crawler_Raise. now apply wrong_schemas_raise.
    + done.
    + intros reg Hreg. rewrite load_source_wrong in Hreg by done.
      discriminate.
    + intros e' reg Hreg. rewrite load_source_wrong in Hreg by done.
      now inversion Hreg.
  - destruct Hwrong as [?|Hm]; [discriminate|].
    destruct (wrong_models_abort crawler log0 Hm) as (e & Hrun & Hret & Hraise).
    exists e. split; [done|]. split; [discriminate|]. split; done.
Qed.

(** C8 (amended). A single value that is neither a list, a tuple nor a
    dict is wrapped into a one-element list where it is the value of a
    mapping entry, and is registered under the name of that entry's type;
    given as the whole schemas or models setting, such a value, when not
    empty, makes construction fail: with [NotConfigured] for the schemas
    setting, and for the models setting with [NotConfigured] when the
    schemas setting loads (as it does when it is unset or empty) and
    otherwise with the exception that loading the schemas setting
    raises. *)
Theorem single_value_wrapped_inside_mapping_only (v : pyobj) :
  bool_decide (type v ∈ [list_t; tuple_t; dict_t]) = false ->
  (forall loader (c : class) (reg : gmap string (list Validator)),
      set_validators loader (PyDict [(PyClass c, v)]) reg
      = set_validators loader (PyDict [(PyClass c, PyList [v])]) reg
      /\ (forall x, loader v = Return x ->
            set_validators loader (PyDict [(PyClass c, v)]) reg
            = (Return tt,
               <[__name__ c := default [] (reg !! __name__ c) ++ [x]]> reg)))
  /\ (forall crawler log0,
        SPIDERMON_VALIDATION_SCHEMAS crawler = v -> truthy v = true ->
        construct crawler log0
        = (Raise (NotConfigured
                    (invalid_type_message v "SPIDERMON_VALIDATION_SCHEMAS")),
           log0))
  /\ (forall crawler log0,
        truthy (SPIDERMON_VALIDATION_SCHEMAS crawler) = false ->
        SPIDERMON_VALIDATION_MODELS crawler = v -> truthy v = true ->
        construct crawler log0
        = (Raise (NotConfigured
                    (invalid_type_message v "SPIDERMON_VALIDATION_MODELS")),
           log0))
  /\ (forall crawler log0,
        SPIDERMON_VALIDATION_MODELS crawler = v -> truthy v = true ->
        exists e,
          construct crawler log0 = (Raise e, log0)
          /\ (forall reg,
                load_source schema_loader "SPIDERMON_VALIDATION_SCHEMAS"
                  (SPIDERMON_VALIDATION_SCHEMAS crawler) ∅ = (Return tt, reg) ->
                e = NotConfigured
                      (invalid_type_message v "SPIDERMON_VALIDATION_MODELS"))
          /\ (forall e' reg,
                load_source schema_loader "SPIDERMON_VALIDATION_SCHEMAS"
                  (SPIDERMON_VALIDATION_SCHEMAS crawler) ∅ = (Raise e', reg) ->
                e = e')).
Proof.
  intros Hty. split; [|split; [|split]].
  - intros loader c reg.
    assert (Hnorm : normalized v = [v]).
    { destruct v; try reflexivity; vm_compute in Hty; discriminate. }
    split.
    + destruct v; try reflexivity; vm_compute in Hty; discriminate.
    + intros x Hx. rewrite set_validators_dict. cbn [for_each].
      erewrite bind_Return; [reflexivity|].
      apply register_entry_run. rewrite Hnorm. simpl. now rewrite Hx.
  - intros crawler log0 <- Htruthy.
    eapply from_crawler_Raise, wrong_schemas_raise.
    unfold wrong_container. now rewrite Htruthy, Hty.
  - intros crawler log0 Hs <- Htruthy.
    eapply from_crawler_Raise, wrong_models_raise.
    + unfold load_source. now rewrite Hs.
    + unfold wrong_container. now rewrite Htruthy, Hty.
  - intros crawler log0 <- Htruthy.
    apply wrong_models_abort.
    unfold wrong_container. now rewrite Htruthy, Hty.
Qed.

End ConstructionFacts.

(** * The sample project, run *)

Import Sample.

(** Property 7 of the specification, end to end. *)
Example end_to_end_example :
  dispatch exported end_to_end product [] =
  (Return (annotated "_validation" [("title", ["required"])] product),
   {| item_obj := annotated "_validation" [("title", ["required"])] product;
      log := [Export product; Stat add_item; Stat (add_fields 2);
              Validate requires_title (exported product);
              Stat (add_field_error "title" "required");
              Stat add_item_with_errors] |})
  /\ _values (annotated "_validation" [("title", ["required"])] product)
       !! "_validation"
     = Some (VErrors {[ "title" := ["required"] ]}).
Proof. split; vm_compute; reflexivity. Qed.

(** The first validator annotates the record, which changes what an export
    of the record would yield; the second validator is still handed the
    mapping computed on entry. *)
Example later_validators_see_the_entry_mapping :
  invocations (log (dispatch exported (pipeline false true) product []).2)
  = [(rejects_a, exported product); (rejects_a_b, exported product)]
  /\ exported (annotated "_validation" [("a", ["bad1"])] product)
     <> exported product.
Proof.
  split; [vm_compute; reflexivity|].
  intros H. apply (f_equal (fun d : Data => d !! "_validation")) in H.
  vm_compute in H. discriminate.
Qed.

(** Line 133 on a field that holds a plain dict: the list under ["x"] is
    extended in place, the key ["a"] is missing and raises [KeyError]; the
    second validator is never invoked and the record keeps the half-made
    change. *)
Example annotation_stops_half_way :
  dispatch exported titled translated [] =
  (Raise (KeyError "a"),
   {| item_obj :=
        {| __class__ := Product;
           fields := {[ "title"; "price" ]};
           _values := {[ "title" := VJson (JObj [("x", JArr [JStr "m"])]);
                         "price" := VJson (JNum 3) ]} |};
      log := [Export translated; Stat add_item; Stat (add_fields 2);
              Validate rejects_x_a (exported translated);
              Stat (add_field_error "x" "m");
              Stat (add_field_error "a" "n");
              Stat add_item_with_errors] |}).
Proof. vm_compute. reflexivity. Qed.

Lemma drop_short_circuit_witness :
  drop_items_with_errors (pipeline true true) = true
  /\ find_validators (pipeline true true) product = [rejects_a; rejects_a_b]
  /\ (validate rejects_a (exported product)).1 = false
  /\ annotatable (pipeline true true) product = true
  /\ dispatch exported (pipeline true true) product [] =
     (Raise (DropItem "Validation failed!"),
      {| item_obj := annotated "_validation" [("a", ["bad1"])] product;
         log := [Export product; Stat add_item; Stat (add_fields 2);
                 Validate rejects_a (exported product);
                 Stat (add_field_error "a" "bad1");
                 Stat add_item_with_errors; Stat add_dropped_item] |}).
Proof.
  assert (H1 : drop_items_with_errors (pipeline true true) = true)
    by reflexivity.
  assert (H2 : find_validators (pipeline true true) product
               = [rejects_a; rejects_a_b]) by reflexivity.
  assert (H3 : (validate rejects_a (exported product)).1 = false)
    by reflexivity.
  assert (H4 : annotatable (pipeline true true) product = true)
    by reflexivity.
  repeat (split; [assumption|]).
  destruct (drop_short_circuit exported (pipeline true true) product []
              rejects_a rejects_a_b [] H1 H2 H3)
    as (_ & _ & _ & _ & _ & _ & Hdropped).
  exact (Hdropped H4).
Defined.

(** C1, as stated, fails on a record that holds something of its own under
    the errors field: the drop switch is on, two validators apply and the
    first fails, yet with annotation on the dispatch ends in the
    [TypeError] of line 133, not in [DropItem], and [add_dropped_item] is
    never called. *)
Lemma drop_is_lost_to_a_clashing_errors_field :
  drop_items_with_errors (pipeline true true) = true
  /\ find_validators (pipeline true true) checked = [rejects_a; rejects_a_b]
  /\ (validate rejects_a (exported checked)).1 = false
  /\ dispatch exported (pipeline true true) checked [] =
     (Raise TypeError,
      {| item_obj := checked;
         log := [Export checked; Stat add_item; Stat (add_fields 3);
                 Validate rejects_a (exported checked);
                 Stat (add_field_error "a" "bad1");
                 Stat add_item_with_errors] |})
  /\ (dispatch exported (pipeline true true) checked []).1
     <> Raise (DropItem "Validation failed!")
  /\ calls_of is_add_dropped_item
       (log (dispatch exported (pipeline true true) checked []).2) = 0.
Proof.
  assert (H : dispatch exported (pipeline true true) checked [] =
     (Raise TypeError,
      {| item_obj := checked;
         log := [Export checked; Stat add_item; Stat (add_fields 3);
                 Validate rejects_a (exported checked);
                 Stat (add_field_error "a" "bad1");
                 Stat add_item_with_errors] |}))
    by (vm_compute; reflexivity).
  do 3 (split; [reflexivity|]). split; [exact H|].
  rewrite H. split; [discriminate|reflexivity].
Qed.

Lemma lookup_type_specific_then_universal_witness :
  validators (pipeline false false) !! __name__ (__class__ product)
    = Some [rejects_a]
  /\ validators (pipeline false false) !! __name__ UniversalItem
     = Some [rejects_a_b]
  /\ find_validators (pipeline false false) product
     = [rejects_a] ++ [rejects_a_b].
Proof.
  assert (H1 : validators (pipeline false false) !! __name__ (__class__ product)
               = Some [rejects_a]) by reflexivity.
  assert (H2 : validators (pipeline false false) !! __name__ UniversalItem
               = Some [rejects_a_b]) by reflexivity.
  repeat (split; [assumption|]).
  exact (proj1 (proj1 (lookup_type_specific_then_universal
                         (pipeline false false) product) _ _ H1 H2)).
Defined.

Lemma item_with_errors_once_per_failing_validator_witness :
  drop_items_with_errors (pipeline false true) = false
  /\ annotatable (pipeline false true) product = true
  /\ calls_of is_add_item_with_errors
       (preamble exported product
        ++ flat_map (fun v => validator_calls v (exported product))
             (find_validators (pipeline false true) product))
     = 2.
Proof.
  assert (H1 : drop_items_with_errors (pipeline false true) = false)
    by reflexivity.
  assert (H2 : annotatable (pipeline false true) product = true)
    by reflexivity.
  repeat (split; [assumption|]).
  exact (proj2 (proj2 (proj2 (item_with_errors_once_per_failing_validator
                                exported (pipeline false true) product [])
                         H1 H2))
           rejects_a rejects_a_b eq_refl eq_refl eq_refl).
Defined.

(** C3, as stated, fails on a record that holds something of its own under
    the errors field: the drop switch is off and two applicable validators
    both answer not-ok on the record, yet with annotation on the dispatch
    ends in the [TypeError] of line 133 after the first of them, with one
    [add_item_with_errors] call, not two. *)
Lemma second_failure_is_never_counted :
  drop_items_with_errors (pipeline false true) = false
  /\ find_validators (pipeline false true) checked = [rejects_a; rejects_a_b]
  /\ (validate rejects_a (exported checked)).1 = false
  /\ (validate rejects_a_b (exported checked)).1 = false
  /\ (dispatch exported (pipeline false true) checked []).1 = Raise TypeError
  /\ calls_of is_add_item_with_errors
       (log (dispatch exported (pipeline false true) checked []).2) = 1.
Proof. repeat split; vm_compute; reflexivity. Qed.

Lemma observation_mode_witness :
  add_errors_to_items (pipeline false false) = false
  /\ drop_items_with_errors (pipeline false false) = false
  /\ dispatch exported (pipeline false false) product [] =
     (Return product,
      {| item_obj := product;
         log := [Export product; Stat add_item; Stat (add_fields 2);
                 Validate rejects_a (exported product);
                 Stat (add_field_error "a" "bad1");
                 Stat add_item_with_errors;
                 Validate rejects_a_b (exported product);
                 Stat (add_field_error "a" "bad2");
                 Stat (add_field_error "b" "bad3");
                 Stat add_item_with_errors] |}).
Proof.
  repeat (split; [reflexivity|]).
  exact (proj1 (observation_mode exported (pipeline false false) product []
                  eq_refl eq_refl)).
Defined.

Lemma unregistered_type_passes_through_witness :
  default [] (validators orders_only !! __name__ (__class__ product)) = []
  /\ default [] (validators orders_only !! __name__ UniversalItem) = []
  /\ dispatch exported orders_only product [] =
     (Return product,
      {| item_obj := product;
         log := [Export product; Stat add_item; Stat (add_fields 2)] |}).
Proof.
  repeat (split; [reflexivity|]).
  exact (proj1 (unregistered_type_passes_through exported orders_only product
                  [] eq_refl eq_refl)).
Defined.

Lemma errors_accumulate_in_validator_order_witness :
  add_errors_to_items (pipeline false true) = true
  /\ drop_items_with_errors (pipeline false true) = false
  /\ holds_messages
       (_values product !! errors_field (pipeline false true)) = true
  /\ failures (exported product) (find_validators (pipeline false true) product)
     = [[("a", ["bad1"])]; [("a", ["bad2"]); ("b", ["bad3"])]]
  /\ exists item' log',
       dispatch exported (pipeline false true) product []
         = (Return item', {| item_obj := item'; log := log' |})
       /\ _values item' !! "_validation"
          = Some (VErrors {[ "a" := ["bad1"; "bad2"]; "b" := ["bad3"] ]}).
Proof.
  repeat (split; [reflexivity|]).
  destruct (errors_accumulate_in_validator_order exported (pipeline false true)
              product [] [("a", ["bad2"]); ("b", ["bad3"])]
              eq_refl eq_refl eq_refl eq_refl (Permutation_refl _))
    as (item' & log' & Hrun & _ & Hfresh & _).
  exists item', log'. split; [exact Hrun|]. apply Hfresh. reflexivity.
Defined.

(** C4, as stated, fails on a record that already carries errors: the two
    validators fail with the errors of the claim, annotation is on and drop
    is off, yet the errors field ends up with the earlier message too. *)
Lemma errors_field_keeps_earlier_content :
  add_errors_to_items (pipeline false true) = true
  /\ drop_items_with_errors (pipeline false true) = false
  /\ failures (exported revisited)
       (find_validators (pipeline false true) revisited)
     = [[("a", ["bad1"])]; [("a", ["bad2"]); ("b", ["bad3"])]]
  /\ exists item' run,
       dispatch exported (pipeline false true) revisited [] = (Return item', run)
       /\ _values item' !! "_validation"
          = Some (VErrors {[ "a" := ["old"; "bad1"; "bad2"]; "b" := ["bad3"] ]})
       /\ _values item' !! "_validation"
          <> Some (VErrors {[ "a" := ["bad1"; "bad2"]; "b" := ["bad3"] ]}).
Proof.
  repeat (split; [reflexivity|]).
  eexists _, _. split; [vm_compute; reflexivity|].
  split; [vm_compute; reflexivity|].
  intros H.
  apply (f_equal (fun entry : option value =>
                    entry ≫= (fun v => match v with
                                       | VErrors d => d !! "a"
                                       | VJson _ => None
                                       end))) in H.
  vm_compute in H. discriminate.
Qed.

Lemma registration_appends_witness :
  set_validators schema_loader
    (PyDict [(PyClass Product, PyList [PyStr "a.json"; PyStr "b.json"])])
    {[ "Product" := [rejects_a] ]}
  = (Return tt,
     {[ "Product" :=
          [rejects_a;
           JSONSchemaValidator (PyDict [(PyStr "title", PyStr "a.json")]);
           JSONSchemaValidator (PyDict [(PyStr "title", PyStr "b.json")])] ]})
  /\ exists news,
       load_all schema_loader
         (declared_for "Product"
            (entries_of
               (PyDict [(PyClass Product,
                         PyList [PyStr "a.json"; PyStr "b.json"])])))
       = Return news
       /\ default []
            (({[ "Product" :=
                   [rejects_a;
                    JSONSchemaValidator (PyDict [(PyStr "title", PyStr "a.json")]);
                    JSONSchemaValidator (PyDict [(PyStr "title", PyStr "b.json")])] ]}
              : gmap string (list Validator)) !! "Product")
          = default []
              (({[ "Product" := [rejects_a] ]} : gmap string (list Validator))
                 !! "Product")
            ++ news.
Proof.
  assert (Hrun :
    set_validators schema_loader
      (PyDict [(PyClass Product, PyList [PyStr "a.json"; PyStr "b.json"])])
      {[ "Product" := [rejects_a] ]}
    = (Return tt,
       {[ "Product" :=
            [rejects_a;
             JSONSchemaValidator (PyDict [(PyStr "title", PyStr "a.json")]);
             JSONSchemaValidator (PyDict [(PyStr "title", PyStr "b.json")])] ]}))
    by (vm_compute; reflexivity).
  split; [exact Hrun|].
  exact (proj1 registration_appends _ _ _ _ Hrun "Product").
Defined.

(** Schemas and models declared for the same type: the registry built by
    [from_crawler] lists the schema validators first. *)
Example two_sources_one_type :
  exists self log',
    construct
      (settings (PyDict [(PyClass Product, PyStr "product.json")])
                (PyDict [(PyClass Product, PyStr "shop.models.ProductModel")]))
      [] = (Return self, log')
    /\ validators self !! "Product"
       = Some [JSONSchemaValidator (PyDict [(PyStr "title", PyStr "product.json")]);
               SchematicsValidator ProductModel]
    /\ log' = [Stat (add_validator "Product" "product.json");
               Stat (add_validator "Product" "ProductModel")].
Proof. eexists _, _. repeat split; vm_compute; reflexivity. Qed.

Lemma single_value_wrapped_inside_mapping_only_witness :
  bool_decide (type (PyStr "shop.schemas.product_schema")
               ∈ [list_t; tuple_t; dict_t]) = false
  /\ set_validators schema_loader
       (PyDict [(PyClass Product, PyStr "shop.schemas.product_schema")]) ∅
     = set_validators schema_loader
         (PyDict [(PyClass Product,
                   PyList [PyStr "shop.schemas.product_schema"])]) ∅
  /\ construct (settings (PyStr "shop.schemas.product_schema") PyNone) []
     = (Raise (NotConfigured
                 (invalid_type_message (PyStr "shop.schemas.product_schema")
                    "SPIDERMON_VALIDATION_SCHEMAS")),
        []).
Proof.
  assert (H : bool_decide (type (PyStr "shop.schemas.product_schema")
                           ∈ [list_t; tuple_t; dict_t]) = false)
    by reflexivity.
  split; [exact H|].
  destruct (single_value_wrapped_inside_mapping_only sorted read_json_file
              load_object json_loads JSONSchemaValidator SchematicsValidator _ H)
    as (Hentry & Hschemas & _).
  split.
  - exact (proj1 (Hentry schema_loader Product ∅)).
  - exact (Hschemas (settings (PyStr "shop.schemas.product_schema") PyNone) []
             eq_refl eq_refl).
Defined.

(** C8, as stated, fails: a single object path given as the schemas setting
    is not wrapped and registered for the universal type; construction
    raises [NotConfigured], although the same path inside a list loads. *)
Lemma single_value_setting_is_rejected :
  construct (settings (PyStr "shop.schemas.product_schema") PyNone) []
  = (Raise (NotConfigured
      "Invalid <<type 'str'>> type for <SPIDERMON_VALIDATION_SCHEMAS> settings, dict or list/tupleis required"),
     [])
  /\ (forall self log',
        construct (settings (PyStr "shop.schemas.product_schema") PyNone) []
        <> (Return self, log'))
  /\ exists self log',
       construct (settings (PyList [PyStr "shop.schemas.product_schema"]) PyNone) []
       = (Return self, log')
       /\ validators self !! "UniversalItem"
          = Some [JSONSchemaValidator
                    (PyDict [(PyStr "title", PyStr "shop.schemas.product_schema")])].
Proof.
  assert (H : construct (settings (PyStr "shop.schemas.product_schema") PyNone) []
              = (Raise (NotConfigured
      "Invalid <<type 'str'>> type for <SPIDERMON_VALIDATION_SCHEMAS> settings, dict or list/tupleis required"),
                 [])) by (vm_compute; reflexivity).
  split; [exact H|]. split.
  - intros self log'. rewrite H. discriminate.
  - eexists _, _. split; vm_compute; reflexivity.
Qed.

(** A class given as the whole models setting: the message names the
    metaclass. *)
Example class_valued_setting_is_rejected :
  construct (settings PyNone (PyClass ProductModel)) []
  = (Raise (NotConfigured
      "Invalid <<class 'schematics.models.ModelMeta'>> type for <SPIDERMON_VALIDATION_MODELS> settings, dict or list/tupleis required"),
     []).
Proof. vm_compute. reflexivity. Qed.

Lemma wrong_container_aborts_construction_witness :
  (wrong_container
     (SPIDERMON_VALIDATION_SCHEMAS
        (settings (PyList [PyStr "product.json"])
                  (PyStr "shop.models.ProductModel"))) = true
   \/ wrong_container
        (SPIDERMON_VALIDATION_MODELS
           (settings (PyList [PyStr "product.json"])
                     (PyStr "shop.models.ProductModel"))) = true)
  /\ construct (settings (PyList [PyStr "product.json"])
                         (PyStr "shop.models.ProductModel")) []
     = (Raise (NotConfigured
                 (invalid_type_message (PyStr "shop.models.ProductModel")
                    "SPIDERMON_VALIDATION_MODELS")),
        []).
Proof.
  assert (H : wrong_container
                (SPIDERMON_VALIDATION_SCHEMAS
                   (settings (PyList [PyStr "product.json"])
                             (PyStr "shop.models.ProductModel"))) = true
              \/ wrong_container
                   (SPIDERMON_VALIDATION_MODELS
                      (settings (PyList [PyStr "product.json"])
                                (PyStr "shop.models.ProductModel"))) = true)
    by (right; reflexivity).
  split; [exact H|].
  destruct (wrong_container_aborts_construction sorted read_json_file
              load_object json_loads JSONSchemaValidator SchematicsValidator
              _ [] H)
    as (e & Hrun & _ & Hmodels & _).
  unfold construct. rewrite Hrun. f_equal. f_equal.
  exact (Hmodels _ eq_refl).
Defined.

(** C9, as stated, fails when the models setting has the wrong container
    type and the schemas setting does not load: here the schemas mapping
    names the type by a string, not by its class, so that line 49 raises
    [AttributeError], and construction ends in that exception, not in
    [NotConfigured]; the models setting is never looked at. *)
Lemma wrong_models_setting_hidden_by_schemas_failure :
  wrong_container
    (SPIDERMON_VALIDATION_MODELS
       (settings (PyDict [(PyStr "Product", PyStr "a.json")])
                 (PyStr "shop.models.ProductModel"))) = true
  /\ construct (settings (PyDict [(PyStr "Product", PyStr "a.json")])
                         (PyStr "shop.models.ProductModel")) []
     = (Raise AttributeError, [])
  /\ forall msg,
       construct (settings (PyDict [(PyStr "Product", PyStr "a.json")])
                           (PyStr "shop.models.ProductModel")) []
       <> (Raise (NotConfigured msg), []).
Proof.
  assert (H : construct (settings (PyDict [(PyStr "Product", PyStr "a.json")])
                                  (PyStr "shop.models.ProductModel")) []
              = (Raise AttributeError, [])) by (vm_compute; reflexivity).
  split; [reflexivity|]. split; [exact H|].
  intros msg. rewrite H. discriminate.
Qed.

(** * Further properties *)

(** ** The validation loop with the drop switch on *)

Lemma failures_through_first_failure data vs :
  failures data (through_first_failure data vs)
  = option_list (head (failures data vs)).
Proof.
  induction vs as [|v vs IH]; [done|]. cbn [through_first_failure].
  destruct ((validate v data).1) eqn:Hok.
  - now rewrite !failures_cons_ok.
  - now rewrite !failures_cons_failed.
Qed.

Lemma forallb_ok_failures data vs :
  forallb (fun v => (validate v data).1) vs = true <-> failures data vs = [].
Proof.
  induction vs as [|v vs IH]; [done|]. cbn [forallb].
  destruct ((validate v data).1) eqn:Hok.
  - now rewrite failures_cons_ok.
  - rewrite failures_cons_failed by done. simpl. split; discriminate.
Qed.

Lemma validate_loop_dropping self data vs : forall item l,
  drop_items_with_errors self = true ->
  annotatable self item = true ->
  for_each vs (loop_body self data) {| item_obj := item; log := l |}
  = (if forallb (fun v => (validate v data).1) vs then Return tt
     else Raise (DropItem "Validation failed!"),
     {| item_obj := annotate_all self (option_list (head (failures data vs))) item;
        log := l ++ flat_map (fun v => validator_calls v data)
                             (through_first_failure data vs)
                 ++ (if forallb (fun v => (validate v data).1) vs then []
                     else [Stat add_dropped_item]) |}).
Proof.
  induction vs as [|v vs IH]; intros item l Hdrop Hann.
  - simpl. unfold ret. now rewrite app_nil_r, annotate_all_nil.
  - cbn [for_each through_first_failure forallb].
    destruct ((validate v data).1) eqn:Hok.
    + rewrite (bind_Return _ _ _ _ _ (loop_body_ok self data v item l Hok)).
      rewrite failures_cons_ok by done. rewrite IH by done.
      cbn [flat_map andb]. now rewrite <- !app_assoc.
    + rewrite (bind_Raise _ _ _ _ _
                 (loop_body_failed_dropped self data v item l Hok Hdrop Hann)).
      rewrite failures_cons_failed by done. cbn [flat_map andb head option_list].
      unfold validator_calls. rewrite Hok, app_nil_r.
      do 3 f_equal. simpl. now rewrite <- !app_assoc.
Qed.

(** The whole dispatch on a record that can take the annotation. *)
Lemma dispatch_closed_form exported (self : ItemValidationPipeline)
    (item : Item) log0 :
  annotatable self item = true ->
  let data := exported item in
  let vs := find_validators self item in
  let item' := annotate_all self (failures data (invoked self data vs)) item in
  dispatch exported self item log0 =
  (if dropped self data vs then Raise (DropItem "Validation failed!")
   else Return item',
   {| item_obj := item';
      log := log0 ++ preamble exported item
               ++ flat_map (fun v => validator_calls v data) (invoked self data vs)
               ++ (if dropped self data vs then [Stat add_dropped_item] else []) |}).
Proof.
  intros Hann data vs item'. subst item'. unfold invoked, dropped.
  destruct (drop_items_with_errors self) eqn:Hdrop.
  - rewrite dispatch_unfold. fold data vs.
    rewrite validate_loop_dropping by done.
    rewrite failures_through_first_failure. cbn [andb].
    destruct (forallb _ vs); cbn [negb]; now rewrite <- !app_assoc.
  - rewrite (dispatch_kept exported self item log0 Hdrop Hann). fold data vs.
    cbn [andb]. now rewrite app_nil_r.
Qed.

(** ** What a dispatch does to the record *)

Lemma through_first_failure_app data oks v rest :
  Forall (fun u => (validate u data).1 = true) oks ->
  (validate v data).1 = false ->
  through_first_failure data (oks ++ v :: rest) = oks ++ [v].
Proof.
  intros Hoks Hv. induction Hoks as [|u oks Hu _ IH]; simpl.
  - now rewrite Hv.
  - now rewrite Hu, IH.
Qed.

Lemma validator_calls_all_ok data vs :
  Forall (fun u => (validate u data).1 = true) vs ->
  flat_map (fun v => validator_calls v data) vs
  = map (fun v => Validate v data) vs.
Proof.
  induction 1 as [|u vs Hu _ IH]; [done|]. cbn [flat_map map].
  rewrite IH. unfold validator_calls. now rewrite Hu.
Qed.

Lemma failures_app data vs1 vs2 :
  failures data (vs1 ++ vs2) = failures data vs1 ++ failures data vs2.
Proof. apply omap_app. Qed.

Lemma forallb_ok_Forall data vs :
  forallb (fun v => (validate v data).1) vs = true
  <-> Forall (fun u => (validate u data).1 = true) vs.
Proof.
  rewrite forallb_forall, Forall_forall.
  split; intros H x Hx; apply H; now apply list_elem_of_In.
Qed.

Lemma failures_Exists data vs :
  failures data vs <> [] <-> Exists (fun v => (validate v data).1 = false) vs.
Proof.
  rewrite <- forallb_ok_failures, forallb_ok_Forall.
  rewrite <- Exists_Forall_neg by (intros v; destruct ((validate v data).1); auto).
  apply Exists_proper; [|done].
  intros v. now rewrite not_true_iff_false.
Qed.

Lemma failures_prefix data ran vs :
  ran `prefix_of` vs -> failures data vs = [] -> failures data ran = [].
Proof.
  intros [k ->]. rewrite failures_app. now intros [? _]%app_eq_nil.
Qed.

Section DispatchMore.

Variable exported : Item -> Data.

(** X1. A dispatch ends in one of three ways: it returns the record, it
    raises [DropItem], or, when the pipeline annotates, it passes on the
    [TypeError] or [KeyError] that line 133 raises.  [DropItem] is raised
    only when the drop switch is on and an applicable validator answers
    not-ok; on a record that can take the annotation it is raised exactly
    then, and the dispatch returns otherwise.  [add_dropped_item] is
    called once when [DropItem] is raised, and never otherwise. *)
Theorem dispatch_drops_iff_enabled_and_failing
    (self : ItemValidationPipeline) (item : Item) log0 :
  let data := exported item in
  let vs := find_validators self item in
  let outcome := (dispatch exported self item log0).1 in
  let run := (dispatch exported self item log0).2 in
  (outcome = Return (item_obj run)
   \/ outcome = Raise (DropItem "Validation failed!")
   \/ add_errors_to_items self = true
      /\ exists e, outcome = Raise e /\ subscript_error e)
  /\ (outcome = Raise (DropItem "Validation failed!") ->
      drop_items_with_errors self = true
      /\ Exists (fun v => (validate v data).1 = false) vs)
  /\ (annotatable self item = true ->
      (outcome = Raise (DropItem "Validation failed!")
       <-> drop_items_with_errors self = true
           /\ Exists (fun v => (validate v data).1 = false) vs)
      /\ (outcome <> Raise (DropItem "Validation failed!")
          -> outcome = Return (item_obj run)))
  /\ exists calls,
       log run = log0 ++ calls
       /\ calls_of is_add_dropped_item calls = if is_drop outcome then 1 else 0.
Proof.
  intros data vs outcome run.
  assert (Hdropped : dropped self data vs = true
                     <-> drop_items_with_errors self = true
                         /\ Exists (fun v => (validate v data).1 = false) vs).
  { unfold dropped. rewrite andb_true_iff, negb_true_iff.
    rewrite <- not_true_iff_false, forallb_ok_failures, failures_Exists.
    done. }
  split; [|split; [|split]].
  - destruct (dispatch_any exported self item log0)
      as (ran & o & item' & Hrun & Hends & Hret & _).
    subst outcome run. rewrite Hrun. cbn [fst snd item_obj].
    destruct Hends as (_ & _ & _ & Hends).
    destruct o as [i|e].
    + left. now rewrite (Hret i eq_refl).
    + right. destruct e as [msg| | | | |];
        [left; now destruct Hends as (-> & _)|..];
        right; destruct Hends as (? & ? & _); eauto.
  - destruct (dispatch_any exported self item log0)
      as (ran & o & item' & Hrun & Hends & _).
    subst outcome. rewrite Hrun. cbn [fst]. intros ->.
    destruct Hends as (_ & _ & _ & _ & Hdrop & Hsome).
    split; [done|]. now apply failures_Exists.
  - intros Hann. subst outcome run.
    rewrite dispatch_closed_form by done. fold data vs. cbn [fst snd item_obj].
    rewrite <- Hdropped. destruct (dropped self data vs); split; done.
  - destruct (dispatch_any exported self item log0)
      as (ran & o & item' & Hrun & _).
    subst outcome run. rewrite Hrun. cbn [fst snd log].
    eexists. split; [reflexivity|].
    unfold preamble. rewrite !calls_of_app, calls_of_loop_none by done.
    now destruct (is_drop o).
Qed.

(** X2. With the drop switch on, on a record that can take the
    annotation, the dispatch stops at the first validator that fails,
    wherever it stands in the lookup order: the validators before it are
    each invoked once and report nothing, the failing one reports its
    errors, [add_item_with_errors] and [add_dropped_item], and the
    validators after it are never invoked. *)
Theorem drop_at_first_failure (self : ItemValidationPipeline) (item : Item)
    log0 (oks : list Validator) (v : Validator) (rest : list Validator) :
  drop_items_with_errors self = true ->
  annotatable self item = true ->
  find_validators self item = oks ++ v :: rest ->
  Forall (fun u => (validate u (exported item)).1 = true) oks ->
  (validate v (exported item)).1 = false ->
  let data := exported item in
  let errors := (validate v data).2 in
  let calls :=
    preamble exported item ++ map (fun u => Validate u data) oks
      ++ Validate v data :: field_error_calls errors
      ++ [Stat add_item_with_errors; Stat add_dropped_item] in
  dispatch exported self item log0 =
    (Raise (DropItem "Validation failed!"),
     {| item_obj := annotate_all self [errors] item; log := log0 ++ calls |})
  /\ invocations calls = map (fun u => (u, data)) (oks ++ [v]).
Proof.
  intros Hdrop Hann Hvs Hoks Hv data errors calls.
  assert (Hrun : dropped self data (oks ++ v :: rest) = true).
  { unfold dropped. rewrite Hdrop. cbn [andb]. apply negb_true_iff.
    apply not_true_iff_false. rewrite forallb_ok_Forall, Forall_app.
    intros [_ Hall]. inversion Hall as [|? ? Hv' _]; subst.
    fold data in Hv. congruence. }
  split.
  - rewrite dispatch_closed_form, Hvs by done. fold data. rewrite Hrun.
    unfold invoked. rewrite Hdrop, through_first_failure_app by done.
    rewrite failures_app, failures_all_ok, failures_cons_failed by done.
    rewrite flat_map_app, validator_calls_all_ok by done.
    cbn [flat_map app failures omap]. unfold validator_calls.
    fold data in Hv. rewrite Hv. subst calls errors.
    change (failures data []) with (@nil Errors).
    do 3 f_equal. rewrite <- !app_assoc. do 2 f_equal.
    simpl. now rewrite <- app_assoc.
  - subst calls. unfold preamble.
    change (Validate v data :: ?l) with ([Validate v data] ++ l).
    rewrite !invocations_app, invocations_field_errors, map_app.
    assert (Hoks' : invocations (map (fun u => Validate u data) oks)
                    = map (fun u => (u, data)) oks).
    { clear. induction oks as [|u oks IH]; [done|]. simpl. now rewrite IH. }
    now rewrite Hoks'.
Qed.

(** X3. A record that every applicable validator accepts is returned as it
    came, whatever the drop and annotate switches say: each validator is
    invoked once, and no error, item-with-errors or dropped-item call is
    made. *)
Theorem valid_item_passes_untouched
    (self : ItemValidationPipeline) (item : Item) log0 :
  Forall (fun v => (validate v (exported item)).1 = true)
         (find_validators self item) ->
  dispatch exported self item log0 =
    (Return item,
     {| item_obj := item;
        log := log0 ++ preamble exported item
                 ++ map (fun v => Validate v (exported item))
                        (find_validators self item) |}).
Proof.
  intros Hall. rewrite dispatch_unfold.
  assert (Hloop : forall vs l,
    Forall (fun v => (validate v (exported item)).1 = true) vs ->
    for_each vs (loop_body self (exported item))
      {| item_obj := item; log := l |}
    = (Return tt,
       {| item_obj := item;
          log := l ++ map (fun v => Validate v (exported item)) vs |})).
  { clear. intros vs l Hall. revert l.
    induction Hall as [|v vs Hv _ IH]; intros l.
    - simpl. unfold ret. now rewrite app_nil_r.
    - cbn [for_each map].
      rewrite (bind_Return _ _ _ _ _ (loop_body_ok self _ v item l Hv)).
      rewrite IH. unfold validator_calls. rewrite Hv.
      now rewrite <- app_assoc. }
  rewrite Hloop by done. cbn [item_obj]. now rewrite <- app_assoc.
Qed.

(** X4. Whatever the switches, whatever the record holds and however the
    dispatch ends, the record's class and every value other than the one
    under the errors field are as they were, and the only field a dispatch
    may declare is the errors field; a pipeline that does not annotate, and
    a record no validator rejects, leave the record exactly as it was. *)
Theorem dispatch_leaves_data_fields_alone
    (self : ItemValidationPipeline) (item : Item) log0 :
  let item' := item_obj (dispatch exported self item log0).2 in
  __class__ item' = __class__ item
  /\ (forall k, k <> errors_field self ->
        _values item' !! k = _values item !! k)
  /\ fields item ⊆ fields item'
  /\ fields item' ⊆ {[ errors_field self ]} ∪ fields item
  /\ (add_errors_to_items self = false -> item' = item)
  /\ (failures (exported item) (find_validators self item) = [] -> item' = item).
Proof.
  intros item'. subst item'.
  destruct (dispatch_any exported self item log0)
    as (ran & o & item' & Hrun & Hends & _ & Htouch & Hoff & Hnone & _).
  rewrite Hrun. cbn [snd item_obj].
  destruct Htouch as (Hclass & Hlo & Hhi & Hvals & _ & _).
  destruct Hends as (Hpre & _).
  repeat split; try done.
  intros Hfail. apply Hnone. now apply (failures_prefix _ _ _ Hpre).
Qed.

(** X5. A dispatch only ever appends to the lists stored under the
    record's errors field, whatever that field holds: for every key, the
    list present on entry (the messages of a mapping of messages, or the
    list a plain dict holds under the key) is an initial segment of the
    list present afterwards, also when line 133 raises half-way through an
    errors dict; and what was held under the errors field is still held
    there. *)
Theorem dispatch_only_appends_messages
    (self : ItemValidationPipeline) (item : Item) log0 :
  let item' := item_obj (dispatch exported self item log0).2 in
  (forall k, stored (_values item !! errors_field self) k
             `prefix_of` stored (_values item' !! errors_field self) k)
  /\ (is_Some (_values item !! errors_field self) ->
      is_Some (_values item' !! errors_field self)).
Proof.
  intros item'. subst item'.
  destruct (dispatch_any exported self item log0)
    as (ran & o & item' & Hrun & _ & _ & Htouch & _).
  rewrite Hrun. cbn [snd item_obj].
  destruct Htouch as (_ & _ & _ & _ & Hsome & Hstored). done.
Qed.

(** X6. An item whose class is named [UniversalItem] has the universal
    validators looked up twice; with the drop switch off, on a record
    that can take the annotation, each of them is invoked twice, in two
    rounds, and each failing one is counted twice by
    [add_item_with_errors]. *)
Theorem universal_named_class_is_validated_twice
    (self : ItemValidationPipeline) (item : Item) log0
    (us : list Validator) :
  __name__ (__class__ item) = "UniversalItem" ->
  validators self !! "UniversalItem" = Some us ->
  find_validators self item = us ++ us
  /\ (drop_items_with_errors self = false ->
      annotatable self item = true ->
      let data := exported item in
      exists calls,
        log (dispatch exported self item log0).2
          = log0 ++ preamble exported item ++ calls
        /\ invocations calls = map (fun v => (v, data)) (us ++ us)
        /\ calls_of is_add_item_with_errors calls
           = 2 * List.length (failures data us)).
Proof.
  intros Hname Hus.
  assert (Hvs : find_validators self item = us ++ us).
  { unfold find_validators. rewrite Hname. cbn [UniversalItem __name__].
    now rewrite Hus. }
  split; [exact Hvs|]. intros Hdrop Hann data.
  rewrite (dispatch_kept exported self item log0 Hdrop Hann), Hvs. fold data.
  eexists. split; [reflexivity|]. split.
  - apply invocations_loop.
  - rewrite calls_of_loop, failures_app, List.length_app. lia.
Qed.

End DispatchMore.

(** ** Annotation, field by field *)

Lemma merge_errors_lookup_notin errors : forall d k,
  k ∉ errors.*1 -> merge_errors errors d !! k = d !! k.
Proof.
  unfold merge_errors.
  induction errors as [|[f ms] es IH]; intros d k Hk; [done|].
  cbn [fold_left]. rewrite fmap_cons, not_elem_of_cons in Hk.
  destruct Hk as [Hne Hk]. rewrite IH by done.
  cbn [fst snd]. now rewrite lookup_insert_ne.
Qed.

Lemma merge_errors_cons f ms es d :
  merge_errors ((f, ms) :: es) d
  = merge_errors es (<[f := default [] (d !! f) ++ ms]> d).
Proof. reflexivity. Qed.

Lemma merge_errors_lookup_in errors : forall d k ms,
  NoDup errors.*1 -> (k, ms) ∈ errors ->
  merge_errors errors d !! k = Some (default [] (d !! k) ++ ms).
Proof.
  induction errors as [|[f ms0] es IH]; intros d k ms Hnodup Hin.
  - now apply elem_of_nil in Hin.
  - rewrite fmap_cons in Hnodup. apply NoDup_cons in Hnodup as [Hf Hnodup].
    rewrite merge_errors_cons.
    apply elem_of_cons in Hin as [Heq|Hin].
    + inversion Heq; subst. rewrite merge_errors_lookup_notin by done.
      now rewrite lookup_insert_eq.
    + assert (Hne : f <> k).
      { intros ->. apply Hf. apply list_elem_of_fmap. now exists (k, ms). }
      rewrite (IH _ k ms) by done.
      now rewrite lookup_insert_ne.
Qed.

Lemma merge_errors_Permutation errors errors' d :
  NoDup errors.*1 -> errors ≡ₚ errors' ->
  merge_errors errors d = merge_errors errors' d.
Proof.
  intros Hnodup Hperm. apply map_eq. intros k.
  assert (Hnodup' : NoDup errors'.*1) by now rewrite <- Hperm.
  destruct (decide (k ∈ errors.*1)) as [Hin|Hnotin].
  - apply list_elem_of_fmap in Hin as ([k' ms] & -> & Hin). simpl.
    rewrite (merge_errors_lookup_in errors d k' ms) by done.
    rewrite (merge_errors_lookup_in errors' d k' ms); [done|done|].
    now rewrite <- Hperm.
  - rewrite merge_errors_lookup_notin by done.
    rewrite merge_errors_lookup_notin; [done|]. now rewrite <- Hperm.
Qed.

(** X7. On an item whose errors field is unset or holds a mapping of
    messages, [_add_errors_to_item] returns.  Afterwards the errors field
    is declared on the item's class and the item holds under it a mapping
    in which, for every field that [errors] reports, the reported messages
    stand after the messages the item already had for that field (so a
    field reported with no message still gets a key), and every other
    field name is as it was; the other values of the item and the log are
    untouched.  ([errors] is a dict: its keys are distinct.) *)
Theorem add_errors_appends_per_field (self : ItemValidationPipeline)
    (errors : Errors) (item : Item) (l : list Event) :
  NoDup errors.*1 ->
  holds_messages (_values item !! errors_field self) = true ->
  exists item' d',
    _add_errors_to_item self errors {| item_obj := item; log := l |}
      = (Return tt, {| item_obj := item'; log := l |})
    /\ errors_field self ∈ fields item'
    /\ (forall k, k <> errors_field self ->
          _values item' !! k = _values item !! k)
    /\ _values item' !! errors_field self = Some (VErrors d')
    /\ (forall k ms, (k, ms) ∈ errors ->
          d' !! k
          = Some (default [] (prior_messages (errors_field self) item !! k)
                    ++ ms))
    /\ (forall k, k ∉ errors.*1 ->
          d' !! k = prior_messages (errors_field self) item !! k).
Proof.
  intros Hnodup Hslot. eexists _, _.
  split; [now apply add_errors_to_item_run|].
  cbn [annotated fields _values].
  split; [apply elem_of_union; left; now apply elem_of_singleton|].
  split; [intros k Hk; now rewrite lookup_insert_ne|].
  split; [apply lookup_insert_eq|]. split.
  - intros k ms Hin. now apply merge_errors_lookup_in.
  - intros k Hk. now apply merge_errors_lookup_notin.
Qed.

(** X8. On an item whose errors field is unset or holds a mapping of
    messages, the result of [_add_errors_to_item] does not depend on the
    order in which [errors.items()] yields the entries of the dict. *)
Theorem annotation_ignores_items_order (self : ItemValidationPipeline)
    (errors errors' : Errors) (item : Item) (l : list Event) :
  NoDup errors.*1 ->
  errors ≡ₚ errors' ->
  holds_messages (_values item !! errors_field self) = true ->
  _add_errors_to_item self errors {| item_obj := item; log := l |}
  = _add_errors_to_item self errors' {| item_obj := item; log := l |}.
Proof.
  intros Hnodup Hperm Hslot. rewrite !add_errors_to_item_run by done.
  unfold annotated. now rewrite (merge_errors_Permutation errors errors').
Qed.

(** X20. On an item that holds under the errors field a value that is no
    dict (a string, a number, a list, [None]), [_add_errors_to_item] with
    at least one entry to add raises [TypeError] at the first entry: line
    131 is skipped because the field is set, and line 133 subscripts the
    value.  The values of the item and the log are untouched; the errors
    field has been declared. *)
Theorem annotation_raises_on_a_foreign_value (self : ItemValidationPipeline)
    (f : string) (ms : list string) (errors : Errors) (item : Item)
    (l : list Event) (j : json) :
  _values item !! errors_field self = Some (VJson j) ->
  (forall kv, j <> JObj kv) ->
  _add_errors_to_item self ((f, ms) :: errors) {| item_obj := item; log := l |}
  = (Raise TypeError,
     {| item_obj := {| __class__ := __class__ item;
                       fields := {[ errors_field self ]} ∪ fields item;
                       _values := _values item |};
        log := l |}).
Proof.
  destruct item as [cls flds vals]. cbn [_values __class__ fields].
  intros Hv Hj. rewrite add_errors_to_item_unfold.
  unfold bind at 1. unfold the_item at 1. cbn [item_obj __class__ fields _values].
  unfold bind at 1. rewrite declare_errors_field.
  unfold bind at 1. unfold the_item at 1. cbn [item_obj __class__ fields _values].
  unfold bind at 1. rewrite Hv.
  rewrite bool_decide_eq_true_2 by eauto. cbn [negb when]. unfold ret at 1.
  cbn [for_each]. unfold bind.
  rewrite (append_messages_run self f ms cls _ vals (VJson j)) by done.
  destruct j; try reflexivity. now destruct (Hj kv).
Qed.

(** ** Construction, further *)

Lemma report_validators (_type : string) (vals : list Validator)
    (l : list Event) :
  for_each vals (fun val =>
      modify (fun log => log ++ [Stat (add_validator _type (name val))])) l
  = (Return tt,
     l ++ map (fun val => Stat (add_validator _type (name val))) vals).
Proof.
  revert l. induction vals as [|v vs IH]; intros l; simpl.
  - now rewrite app_nil_r.
  - unfold bind, modify. rewrite IH. now rewrite <- app_assoc.
Qed.

Lemma init_run (order : dict_order) (validators : gmap string (list Validator))
    (drop annotate : option bool) (field : option string) (l : list Event) :
  __init__ order validators drop annotate field l
  = (Return (configured validators drop annotate field),
     l ++ registration_calls (dict_items order validators)).
Proof.
  unfold __init__, registration_calls. fold (configured validators drop annotate field).
  generalize (configured validators drop annotate field) as self.
  generalize (dict_items order validators) as entries. intros entries self.
  unfold bind at 1.
  assert (Hloop : forall l,
    for_each entries (fun entry : string * list Validator =>
        let '(_type, vals) := entry in
        for_each vals (fun val =>
          modify (fun log => log ++ [Stat (add_validator _type (name val))]))) l
    = (Return tt,
       l ++ flat_map (fun entry : string * list Validator =>
                        map (fun val => Stat (add_validator entry.1 (name val)))
                            entry.2) entries)).
  { clear. induction entries as [|[t vs] es IH]; intros l; simpl.
    - now rewrite app_nil_r.
    - unfold bind. rewrite report_validators, IH. now rewrite <- app_assoc. }
  now rewrite Hloop.
Qed.

Lemma elem_of_registration_calls (reg : gmap string (list Validator))
    (entries : list (string * list Validator)) t n :
  entries ≡ₚ map_to_list reg ->
  Stat (add_validator t n) ∈ registration_calls entries
  <-> exists vs v, reg !! t = Some vs /\ v ∈ vs /\ name v = n.
Proof.
  intros Hperm.
  unfold registration_calls. rewrite list_elem_of_In, in_flat_map. split.
  - intros ([t' vs] & Hentry & Hin). simpl in Hin.
    apply in_map_iff in Hin as (v & Heq & Hv). inversion Heq; subst.
    exists vs, v. split; [|split; [now apply list_elem_of_In|done]].
    apply elem_of_map_to_list. rewrite <- Hperm. now apply list_elem_of_In.
  - intros (vs & v & Hreg & Hv & <-). exists (t, vs). split.
    + apply list_elem_of_In. rewrite Hperm. now apply elem_of_map_to_list.
    + simpl. apply in_map_iff. exists v. split; [done|].
      now apply list_elem_of_In.
Qed.

Lemma load_all_Forall2 loader paths : forall xs,
  load_all loader paths = Return xs ->
  Forall2 (fun p x => loader p = Return x) paths xs.
Proof.
  induction paths as [|p paths IH]; intros xs H; simpl in H.
  - inversion H. constructor.
  - destruct (loader p) as [x|e] eqn:Hp; [|discriminate].
    destruct (load_all loader paths) as [xs'|e]; [|discriminate].
    inversion H; subst. constructor; auto.
Qed.

Lemma load_all_sound loader (P : Validator -> Prop) paths xs :
  (forall p x, loader p = Return x -> P x) ->
  load_all loader paths = Return xs -> Forall P xs.
Proof.
  intros Hsound H. apply load_all_Forall2 in H.
  induction H as [|p x paths xs Hp _ IH]; constructor; eauto.
Qed.

Lemma registered_keys loader entries :
  forall reg reg' : gmap string (list Validator),
  for_each entries (register_entry loader) reg = (Return tt, reg') ->
  Forall (fun entry : pyobj * pyobj => exists c, entry.1 = PyClass c) entries
  /\ forall key, is_Some (reg' !! key) ->
       is_Some (reg !! key)
       \/ exists c paths, (PyClass c, paths) ∈ entries /\ __name__ c = key.
Proof.
  induction entries as [|[obj paths] entries IH]; intros reg reg' Hrun.
  - simpl in Hrun. inversion Hrun. split; [constructor|auto].
  - cbn [for_each] in Hrun. unfold bind in Hrun.
    destruct (register_entry loader (obj, paths) reg) as [[[]|e] reg1] eqn:Hentry;
      [|discriminate].
    apply register_entry_Return in Hentry as (c & objects & -> & Hload & ->).
    destruct (IH _ _ Hrun) as (Hkeys & Hreg). split.
    + constructor; [now exists c|done].
    + intros key Hkey. destruct (Hreg key Hkey) as [Hold|(c' & paths' & Hin & Hname)].
      * destruct (decide (__name__ c = key)) as [<-|Hne].
        -- right. exists c, paths. split; [apply elem_of_cons; now left|done].
        -- left. now rewrite lookup_insert_ne in Hold.
      * right. exists c', paths'. split; [apply elem_of_cons; now right|done].
Qed.

Lemma load_source_keys loader name res
    (reg reg' : gmap string (list Validator)) :
  load_source loader name res reg = (Return tt, reg') ->
  forall key, is_Some (reg' !! key) ->
    is_Some (reg !! key)
    \/ exists c paths, (PyClass c, paths) ∈ source_entries res /\ __name__ c = key.
Proof.
  unfold load_source, source_entries, allowed_types.
  destruct (truthy res); simpl.
  - destruct (bool_decide (type res ∈ [list_t; tuple_t; dict_t])) eqn:Hty; simpl.
    + rewrite set_validators_entries by done. intros H. now apply registered_keys in H.
    + discriminate.
  - intros H key. inversion H. auto.
Qed.

Lemma endswith_app (p suffix : string) : endswith (p ++ suffix) suffix = true.
Proof.
  unfold endswith.
  assert (Hlen : String.length (p ++ suffix)
                 = String.length p + String.length suffix).
  { induction p as [|a p IH]; simpl; [done|]. now rewrite IH. }
  rewrite Hlen. apply andb_true_iff. split; [apply Nat.leb_le; lia|].
  replace (String.length p + String.length suffix - String.length suffix)
    with (String.length p) by lia.
  apply String.eqb_eq. clear Hlen.
  induction p as [|a p IH]; [|exact IH].
  change ("" +:+ suffix) with suffix. change (String.length "") with 0.
  induction suffix as [|a s IH]; [done|].
  cbn [String.length substring]. now rewrite IH.
Qed.

(** X9. A list and a tuple declare the same thing: the validators loaded
    from the elements, in order, are put after whatever the registry holds
    for [UniversalItem], and no other key is touched.  When one element
    does not load, the exception of the first such element is raised and
    the registry is left as it was. *)
Theorem sequence_registers_for_universal_type
    (loader : pyobj -> outcome Validator) (l : list pyobj)
    (reg : gmap string (list Validator)) :
  set_validators loader (PyTuple l) reg = set_validators loader (PyList l) reg
  /\ (forall objects, load_all loader l = Return objects ->
        set_validators loader (PyList l) reg
        = (Return tt,
           <["UniversalItem" := default [] (reg !! "UniversalItem") ++ objects]>
             reg))
  /\ (forall e, load_all loader l = Raise e ->
        set_validators loader (PyList l) reg = (Raise e, reg)).
Proof.
  split; [reflexivity|]. split.
  - intros objects Hload.
    rewrite set_validators_entries by reflexivity. cbn [entries_of for_each].
    erewrite bind_Return; [reflexivity|].
    now apply (register_entry_run loader UniversalItem (PyList l) objects).
  - intros e Hload.
    rewrite set_validators_entries by reflexivity. cbn [entries_of for_each].
    apply bind_Raise. unfold register_entry. unfold bind at 1. unfold lift at 1.
    cbn [getattr__name__]. unfold bind.
    now rewrite comprehension_load, Hload.
Qed.

(** X10. The keys of a mapping declaration must be class objects:
    [set_validators] returns only if every key is one, and a mapping whose
    first key is a type name written as a string raises [AttributeError]
    with nothing registered. *)
Theorem mapping_keys_must_be_classes
    (loader : pyobj -> outcome Validator) (entries : list (pyobj * pyobj))
    (reg : gmap string (list Validator)) :
  (forall reg',
      set_validators loader (PyDict entries) reg = (Return tt, reg') ->
      Forall (fun entry : pyobj * pyobj => exists c, entry.1 = PyClass c) entries)
  /\ (forall type_name paths rest,
        entries = (PyStr type_name, paths) :: rest ->
        set_validators loader (PyDict entries) reg = (Raise AttributeError, reg)).
Proof.
  split.
  - intros reg' Hrun. rewrite set_validators_dict in Hrun.
    now apply registered_keys in Hrun.
  - intros type_name paths rest ->. reflexivity.
Qed.

Section ConstructionMore.

Variable order : dict_order.
Variable read_json_file : string -> outcome pyobj.
Variable load_object : pyobj -> outcome pyobj.
Variable json_loads : string -> outcome pyobj.
Variable JSONSchemaValidator : pyobj -> Validator.
Variable SchematicsValidator : class -> Validator.

#[local] Abbreviation schema_loader :=
  (_load_jsonschema_validator read_json_file load_object json_loads
     JSONSchemaValidator).
#[local] Abbreviation model_loader :=
  (_load_schematics_validator load_object SchematicsValidator).
#[local] Abbreviation build :=
  (load_settings read_json_file load_object json_loads JSONSchemaValidator
     SchematicsValidator).
#[local] Abbreviation construct :=
  (from_crawler order read_json_file load_object json_loads
     JSONSchemaValidator SchematicsValidator).

Lemma from_crawler_run (crawler : Settings) (log0 : list Event) :
  construct crawler log0 =
  match build crawler ∅ with
  | (Raise e, _) => (Raise e, log0)
  | (Return _, reg) =>
      (Return (configured reg
                 (SPIDERMON_VALIDATION_DROP_ITEMS_WITH_ERRORS crawler)
                 (SPIDERMON_VALIDATION_ADD_ERRORS_TO_ITEMS crawler)
                 (SPIDERMON_VALIDATION_ERRORS_FIELD crawler)),
       log0 ++ registration_calls (dict_items order reg))
  end.
Proof.
  unfold from_crawler. destruct (build crawler ∅) as [[[]|e] reg]; [|done].
  apply init_run.
Qed.

Lemma build_Return (crawler : Settings) reg :
  build crawler ∅ = (Return tt, reg) ->
  exists reg1,
    load_source schema_loader "SPIDERMON_VALIDATION_SCHEMAS"
      (SPIDERMON_VALIDATION_SCHEMAS crawler) ∅ = (Return tt, reg1)
    /\ load_source model_loader "SPIDERMON_VALIDATION_MODELS"
         (SPIDERMON_VALIDATION_MODELS crawler) reg1 = (Return tt, reg).
Proof.
  rewrite load_settings_unfold. unfold bind. intros H.
  destruct (load_source _ "SPIDERMON_VALIDATION_SCHEMAS" _ ∅)
    as [[[]|e1] reg1] eqn:H1; [|discriminate].
  destruct (load_source _ "SPIDERMON_VALIDATION_MODELS" _ reg1)
    as [[[]|e2] reg2] eqn:H2; [|discriminate].
  inversion H; subst. now exists reg1.
Qed.

(** X11. Construction tells the statistics manager either everything or
    nothing: when [from_crawler] raises, no call has been made; when it
    returns, the calls made are the [add_validator] calls for the entries
    of the registry, one entry after the other in the order in which the
    dict yields them, and within an entry one call for each validator, in
    list order, with the entry's key and the validator's name. *)
Theorem construction_reports_registry_or_nothing
    (crawler : Settings) (log0 : list Event) :
  match construct crawler log0 with
  | (Raise _, log') => log' = log0
  | (Return self, log') =>
      exists entries,
        entries ≡ₚ map_to_list (validators self)
        /\ log' = log0
                  ++ flat_map (fun entry : string * list Validator =>
                                 map (fun val =>
                                        Stat (add_validator entry.1 (name val)))
                                     entry.2)
                              entries
        /\ (forall t n,
              Stat (add_validator t n) ∈ registration_calls entries
              <-> exists vs v,
                    validators self !! t = Some vs /\ v ∈ vs /\ name v = n)
  end.
Proof.
  rewrite from_crawler_run.
  destruct (build crawler ∅) as [[[]|e] reg]; [|done].
  cbn [configured validators]. exists (dict_items order reg).
  split; [apply dict_items_perm|]. split; [done|].
  intros t n. apply elem_of_registration_calls, dict_items_perm.
Qed.

(** X12. The switches of a constructed pipeline: drop and annotate are on
    exactly when their settings are set to true, and the errors field is
    the configured name, or ["_validation"] when the setting is unset or
    the empty string; it is never empty. *)
Theorem constructed_pipeline_switches
    (crawler : Settings) (log0 log' : list Event)
    (self : ItemValidationPipeline) :
  construct crawler log0 = (Return self, log') ->
  drop_items_with_errors self
    = default false (SPIDERMON_VALIDATION_DROP_ITEMS_WITH_ERRORS crawler)
  /\ add_errors_to_items self
     = default false (SPIDERMON_VALIDATION_ADD_ERRORS_TO_ITEMS crawler)
  /\ errors_field self <> ""
  /\ (forall f, SPIDERMON_VALIDATION_ERRORS_FIELD crawler = Some f ->
        f <> "" -> errors_field self = f)
  /\ (SPIDERMON_VALIDATION_ERRORS_FIELD crawler = None
      \/ SPIDERMON_VALIDATION_ERRORS_FIELD crawler = Some "" ->
      errors_field self = "_validation").
Proof.
  rewrite from_crawler_run.
  destruct (build crawler ∅) as [[[]|e] reg]; [|discriminate].
  intros H. inversion H; subst. cbn [configured drop_items_with_errors
    add_errors_to_items errors_field]. unfold is_true.
  repeat split.
  - now rewrite orb_false_r.
  - destruct (SPIDERMON_VALIDATION_ERRORS_FIELD crawler) as [f|]; [|done].
    destruct (String.eqb_spec f ""); done.
  - intros f -> Hf. now apply String.eqb_neq in Hf as ->.
  - now intros [-> | ->].
Qed.

(** X13. With both declaration settings unset or empty (whatever their
    type: [None], an empty string, an empty list, tuple or dict),
    construction succeeds with an empty registry and no statistics call,
    and the pipeline it yields returns every record unchanged after the
    three opening calls. *)
Theorem undeclared_pipeline_validates_nothing
    (crawler : Settings) (log0 : list Event) (exported : Item -> Data) :
  truthy (SPIDERMON_VALIDATION_SCHEMAS crawler) = false ->
  truthy (SPIDERMON_VALIDATION_MODELS crawler) = false ->
  exists self,
    construct crawler log0 = (Return self, log0)
    /\ validators self = ∅
    /\ forall item log1,
         dispatch exported self item log1
         = (Return item,
            {| item_obj := item; log := log1 ++ preamble exported item |}).
Proof.
  intros Hs Hm. eexists. split; [|split].
  - rewrite from_crawler_run, load_settings_unfold.
    unfold load_source, bind. rewrite Hs, Hm. cbn.
    assert (Hnone : dict_items order (∅ : gmap string (list Validator)) = []).
    { apply Permutation_nil_r.
      now rewrite (dict_items_perm order ∅), map_to_list_empty. }
    rewrite Hnone. cbn. now rewrite app_nil_r.
  - reflexivity.
  - intros item log1. rewrite dispatch_unfold. reflexivity.
Qed.

(** X14. [_load_jsonschema_validator] builds a validator from a dict and
    from nothing else: a dict given inline is used as it is, a value that
    is neither a string nor a dict is refused with [NotConfigured], and
    whenever the loader returns, what it returns is [JSONSchemaValidator]
    of a dict. *)
Theorem jsonschema_loader_builds_from_dicts_only :
  (forall kv, schema_loader (PyDict kv) = Return (JSONSchemaValidator (PyDict kv)))
  /\ (forall schema, type schema <> str_t -> type schema <> dict_t ->
        schema_loader schema = Raise (NotConfigured invalid_schema_message))
  /\ (forall schema v, schema_loader schema = Return v ->
        exists kv, v = JSONSchemaValidator (PyDict kv)).
Proof.
  split; [reflexivity|]. split.
  - intros schema Hs Hd. destruct schema; try reflexivity; done.
  - intros schema v. unfold _load_jsonschema_validator.
    destruct (match schema with PyStr _ => _ | _ => _ end) as [[]|e];
      try discriminate.
    intros H. inversion H. eauto.
Qed.

(** X15. A path that ends in [.json] is read as a file and never imported:
    the loaders' other collaborators have no say; a file that does not
    hold a JSON object is refused with [NotConfigured], and an exception
    raised while reading is passed on. *)
Theorem json_file_path_is_read_not_imported (p : string) :
  schema_loader (PyStr (p ++ ".json")) =
  match read_json_file (p ++ ".json") with
  | Return (PyDict kv) => Return (JSONSchemaValidator (PyDict kv))
  | Return _ => Raise (NotConfigured invalid_schema_message)
  | Raise e => Raise e
  end.
Proof.
  unfold _load_jsonschema_validator. now rewrite endswith_app.
Qed.

(** X16. [_load_schematics_validator] returns only for a path that
    [load_object] resolves to a class that subclasses
    [schematics.models.Model], and then returns [SchematicsValidator] of
    that class; a class that does not subclass it is refused with
    [NotConfigured], an object that is no class with [TypeError], and an
    exception of [load_object] is passed on. *)
Theorem schematics_loader_requires_model_subclass (model_path : pyobj) :
  (forall v, model_loader model_path = Return v ->
     exists c, load_object model_path = Return (PyClass c)
               /\ subclasses_Model c = true
               /\ v = SchematicsValidator c)
  /\ (forall c, load_object model_path = Return (PyClass c) ->
        subclasses_Model c = false ->
        model_loader model_path
        = Raise (NotConfigured
                   "Invalid model, models must subclass schematics.models.Model"))
  /\ (forall o, load_object model_path = Return o -> type o <> type_t ->
        model_loader model_path = Raise TypeError)
  /\ (forall e, load_object model_path = Raise e ->
        model_loader model_path = Raise e).
Proof.
  unfold _load_schematics_validator. repeat split.
  - intros v. destruct (load_object model_path) as [[]|e]; try discriminate.
    destruct (subclasses_Model c) eqn:Hc; [|discriminate].
    intros H. inversion H. eauto.
  - intros c -> ->. reflexivity.
  - intros o -> Ho. destruct o; try reflexivity; done.
  - intros e ->. reflexivity.
Qed.

Lemma jsonschema_loader_sound schema v :
  schema_loader schema = Return v ->
  exists kv, v = JSONSchemaValidator (PyDict kv).
Proof.
  unfold _load_jsonschema_validator.
  destruct (match schema with PyStr _ => _ | _ => _ end) as [[]|e];
    try discriminate.
  intros H. inversion H. eauto.
Qed.

Lemma schematics_loader_sound model_path v :
  model_loader model_path = Return v ->
  exists c, load_object model_path = Return (PyClass c)
            /\ subclasses_Model c = true
            /\ v = SchematicsValidator c.
Proof.
  unfold _load_schematics_validator.
  destruct (load_object model_path) as [[]|e]; try discriminate.
  destruct (subclasses_Model c) eqn:Hc; [|discriminate].
  intros H. inversion H. eauto.
Qed.

(** X17. Every validator in the registry of a constructed pipeline was
    built by one of the two loaders, from a JSON schema dict or from a
    subclass of [schematics.models.Model]; and every key of the registry
    is [UniversalItem] or the name of a class that is a key of the schemas
    or of the models mapping. *)
Theorem constructed_registry_is_sound
    (crawler : Settings) (log0 log' : list Event)
    (self : ItemValidationPipeline) (key : string) (vs : list Validator) :
  construct crawler log0 = (Return self, log') ->
  validators self !! key = Some vs ->
  Forall (fun v =>
            (exists kv, v = JSONSchemaValidator (PyDict kv))
            \/ (exists c, subclasses_Model c = true
                          /\ v = SchematicsValidator c)) vs
  /\ (key = "UniversalItem"
      \/ exists c paths,
           __name__ c = key
           /\ ((PyClass c, paths)
                 ∈ source_entries (SPIDERMON_VALIDATION_SCHEMAS crawler)
               \/ (PyClass c, paths)
                    ∈ source_entries (SPIDERMON_VALIDATION_MODELS crawler))).
Proof.
  rewrite from_crawler_run.
  destruct (build crawler ∅) as [[[]|e] reg] eqn:Hbuild; [|discriminate].
  intros H Hkey. inversion H; subst. cbn [configured validators] in Hkey.
  apply build_Return in Hbuild as (reg1 & H1 & H2). split.
  - destruct (load_source_Return _ _ _ _ _ H1 key) as (vs1 & Hvs1 & Hreg1).
    destruct (load_source_Return _ _ _ _ _ H2 key) as (vs2 & Hvs2 & Hreg2).
    rewrite Hkey, Hreg1, lookup_empty in Hreg2. simpl in Hreg2. subst vs.
    apply Forall_app. split.
    + eapply load_all_sound; [|exact Hvs1]. intros p x Hx. left.
      now apply jsonschema_loader_sound in Hx.
    + eapply load_all_sound; [|exact Hvs2]. intros p x Hx. right.
      apply schematics_loader_sound in Hx as (c & _ & Hc & ->). eauto.
  - assert (Hsome : is_Some (reg !! key)) by eauto.
    assert (Hgeneral : exists c paths,
      __name__ c = key
      /\ ((PyClass c, paths)
            ∈ source_entries (SPIDERMON_VALIDATION_SCHEMAS crawler)
          \/ (PyClass c, paths)
               ∈ source_entries (SPIDERMON_VALIDATION_MODELS crawler))).
    { destruct (load_source_keys _ _ _ _ _ H2 key Hsome)
        as [Hsome1|(c & paths & Hin & Hname)].
      - destruct (load_source_keys _ _ _ _ _ H1 key Hsome1)
          as [Hempty|(c & paths & Hin & Hname)].
        + rewrite lookup_empty in Hempty. now destruct Hempty.
        + exists c, paths. auto.
      - exists c, paths. auto. }
    now right.
Qed.

(** X18. From settings to dispatch order: a record of a constructed
    pipeline is validated by the schema validators declared for its type
    name, then the model validators declared for it, then the schema
    validators declared for [UniversalItem], then the model validators
    declared for [UniversalItem], each group in declaration order. *)
Theorem constructed_dispatch_order
    (crawler : Settings) (log0 log' : list Event)
    (self : ItemValidationPipeline) (item : Item) :
  construct crawler log0 = (Return self, log') ->
  let schemas := source_entries (SPIDERMON_VALIDATION_SCHEMAS crawler) in
  let models := source_entries (SPIDERMON_VALIDATION_MODELS crawler) in
  let type_name := __name__ (__class__ item) in
  exists type_schemas type_models universal_schemas universal_models,
    load_all schema_loader (declared_for type_name schemas) = Return type_schemas
    /\ load_all model_loader (declared_for type_name models) = Return type_models
    /\ load_all schema_loader (declared_for "UniversalItem" schemas)
       = Return universal_schemas
    /\ load_all model_loader (declared_for "UniversalItem" models)
       = Return universal_models
    /\ find_validators self item
       = (type_schemas ++ type_models) ++ (universal_schemas ++ universal_models).
Proof.
  rewrite from_crawler_run.
  destruct (build crawler ∅) as [[[]|e] reg] eqn:Hbuild; [|discriminate].
  intros H schemas models type_name. inversion H; subst self log'.
  apply build_Return in Hbuild as (reg1 & H1 & H2).
  assert (Hkey : forall key, exists vs1 vs2,
    load_all schema_loader (declared_for key schemas) = Return vs1
    /\ load_all model_loader (declared_for key models) = Return vs2
    /\ default [] (reg !! key) = vs1 ++ vs2).
  { intros key.
    destruct (load_source_Return _ _ _ _ _ H1 key) as (vs1 & Hvs1 & Hreg1).
    destruct (load_source_Return _ _ _ _ _ H2 key) as (vs2 & Hvs2 & Hreg2).
    exists vs1, vs2. repeat split; [done..|].
    now rewrite Hreg2, Hreg1, lookup_empty. }
  destruct (Hkey type_name) as (ts & tm & Hts & Htm & Htype).
  destruct (Hkey "UniversalItem") as (us & um & Hus & Hum & Huniversal).
  exists ts, tm, us, um. repeat split; [done..|].
  unfold find_validators. cbn [configured validators UniversalItem __name__].
  fold type_name. now rewrite Htype, Huniversal.
Qed.

End ConstructionMore.

(** ** Statistics totals *)

Lemma calls_of_field_error_calls (errors : Errors) :
  calls_of is_add_field_error (field_error_calls errors)
  = List.length (concat errors.*2).
Proof.
  assert (Hone : forall f (ms : list string),
    calls_of is_add_field_error
      (map (fun message => Stat (add_field_error f message)) ms)
    = List.length ms).
  { intros f ms. induction ms as [|m ms IH]; [done|].
    unfold calls_of in *. simpl. now rewrite IH. }
  unfold field_error_calls.
  induction errors as [|[f ms] es IH]; [done|].
  cbn [flat_map fmap list_fmap concat fst snd].
  now rewrite calls_of_app, IH, List.length_app, Hone.
Qed.

Lemma calls_of_loop_field_errors data vs :
  calls_of is_add_field_error (flat_map (fun v => validator_calls v data) vs)
  = message_count (failures data vs).
Proof.
  unfold message_count.
  induction vs as [|v vs IH]; [done|]. cbn [flat_map].
  rewrite calls_of_app, IH. unfold validator_calls.
  destruct ((validate v data).1) eqn:Hok.
  - now rewrite failures_cons_ok.
  - rewrite failures_cons_failed by done. cbn [map concat].
    change (Validate v data :: ?l) with ([Validate v data] ++ l).
    rewrite !calls_of_app, calls_of_field_error_calls, List.length_app.
    change (calls_of is_add_field_error [Validate v data]) with 0.
    change (calls_of is_add_field_error [Stat add_item_with_errors]) with 0.
    lia.
Qed.

Section Totals.

Variable exported : Item -> Data.

(** X19. What one dispatch adds to the statistics, whatever the switches,
    whatever the record holds and however the dispatch ends: one
    [add_item], one [add_fields] (with the number of fields of the
    converted mapping), one [add_item_with_errors] for each failing
    validator among those invoked, one [add_field_error] for each message
    such a validator reports, and no [add_validator].  The validators
    invoked are an initial run of the applicable ones; on a record that
    can take the annotation they are all of them when the drop switch is
    off, and those through the first failing one when it is on. *)
Theorem dispatch_statistics_totals
    (self : ItemValidationPipeline) (item : Item) log0 :
  let data := exported item in
  let vs := find_validators self item in
  exists ran calls,
    log (dispatch exported self item log0).2 = log0 ++ calls
    /\ invocations calls = map (fun v => (v, data)) ran
    /\ ran `prefix_of` vs
    /\ calls_of is_add_item calls = 1
    /\ calls_of is_add_fields calls = 1
    /\ Stat (add_fields (size data)) ∈ calls
    /\ calls_of is_add_item_with_errors calls = List.length (failures data ran)
    /\ calls_of is_add_field_error calls = message_count (failures data ran)
    /\ calls_of (fun c => match c with add_validator _ _ => true | _ => false end)
         calls = 0
    /\ (annotatable self item = true -> ran = invoked self data vs).
Proof.
  intros data vs.
  destruct (dispatch_any exported self item log0)
    as (ran & o & item' & Hrun & Hends & _ & _ & _ & _ & Hran).
  fold data vs in Hrun, Hends, Hran. destruct Hends as (Hpre & _).
  exists ran. eexists. rewrite Hrun. cbn [snd log].
  split; [reflexivity|]. unfold preamble. fold data.
  rewrite !invocations_app, invocations_loop.
  rewrite !calls_of_app, calls_of_loop, calls_of_loop_field_errors.
  rewrite !calls_of_loop_none by done.
  split; [destruct (is_drop o); cbn; now rewrite app_nil_r|].
  split; [done|].
  split; [now destruct (is_drop o)|].
  split; [now destruct (is_drop o)|].
  split; [apply elem_of_app; left; apply list_elem_of_In; simpl; auto|].
  split; [destruct (is_drop o); unfold calls_of; simpl; lia|].
  split; [destruct (is_drop o); unfold calls_of; simpl; lia|].
  split; [now destruct (is_drop o)|].
  exact Hran.
Qed.

End Totals.

(** * Further sample runs *)

Import Cases.

(** On a plain dict under the errors field the order of [errors.items()]
    does show: the entry for the missing key raises before or after the
    other entry has been appended. *)
Example items_order_shows_on_a_plain_dict :
  _add_errors_to_item titled [("x", ["m"]); ("a", ["n"])]
    {| item_obj := translated; log := [] |}
  <> _add_errors_to_item titled [("a", ["n"]); ("x", ["m"])]
       {| item_obj := translated; log := [] |}.
Proof.
  intros H.
  apply (f_equal (fun r : outcome unit * Run =>
                    _values (item_obj r.2) !! "title")) in H.
  vm_compute in H. discriminate.
Qed.

Lemma drop_at_first_failure_witness :
  drop_items_with_errors late_failure = true
  /\ annotatable late_failure product = true
  /\ find_validators late_failure product = [accepts] ++ rejects_a :: [rejects_a_b]
  /\ Forall (fun u => (validate u (exported product)).1 = true) [accepts]
  /\ (validate rejects_a (exported product)).1 = false
  /\ dispatch exported late_failure product [] =
     (Raise (DropItem "Validation failed!"),
      {| item_obj := annotated "_validation" [("a", ["bad1"])] product;
         log := [Export product; Stat add_item; Stat (add_fields 2);
                 Validate accepts (exported product);
                 Validate rejects_a (exported product);
                 Stat (add_field_error "a" "bad1");
                 Stat add_item_with_errors; Stat add_dropped_item] |}).
Proof.
  assert (H1 : drop_items_with_errors late_failure = true) by reflexivity.
  assert (H0 : annotatable late_failure product = true) by reflexivity.
  assert (H2 : find_validators late_failure product
               = [accepts] ++ rejects_a :: [rejects_a_b]) by reflexivity.
  assert (H3 : Forall (fun u => (validate u (exported product)).1 = true)
                      [accepts]) by (repeat constructor).
  assert (H4 : (validate rejects_a (exported product)).1 = false)
    by reflexivity.
  repeat (split; [assumption|]).
  exact (proj1 (drop_at_first_failure exported late_failure product []
                  [accepts] rejects_a [rejects_a_b] H1 H0 H2 H3 H4)).
Defined.

Lemma valid_item_passes_untouched_witness :
  Forall (fun v => (validate v (exported product)).1 = true)
         (find_validators lenient product)
  /\ dispatch exported lenient product [] =
     (Return product,
      {| item_obj := product;
         log := [Export product; Stat add_item; Stat (add_fields 2);
                 Validate accepts (exported product);
                 Validate accepts (exported product)] |}).
Proof.
  assert (H : Forall (fun v => (validate v (exported product)).1 = true)
                     (find_validators lenient product))
    by (repeat constructor).
  split; [exact H|].
  exact (valid_item_passes_untouched exported lenient product [] H).
Defined.

Lemma universal_named_class_is_validated_twice_witness :
  __name__ (__class__ universal_record) = "UniversalItem"
  /\ validators (pipeline false true) !! "UniversalItem" = Some [rejects_a_b]
  /\ drop_items_with_errors (pipeline false true) = false
  /\ annotatable (pipeline false true) universal_record = true
  /\ find_validators (pipeline false true) universal_record
     = [rejects_a_b] ++ [rejects_a_b]
  /\ exists calls,
       log (dispatch exported (pipeline false true) universal_record []).2
         = [] ++ preamble exported universal_record ++ calls
       /\ invocations calls
          = map (fun v => (v, exported universal_record))
                ([rejects_a_b] ++ [rejects_a_b])
       /\ calls_of is_add_item_with_errors calls
          = 2 * List.length (failures (exported universal_record) [rejects_a_b]).
Proof.
  do 4 (split; [reflexivity|]).
  destruct (universal_named_class_is_validated_twice exported
              (pipeline false true) universal_record [] [rejects_a_b]
              eq_refl eq_refl) as [Hfind Hrun].
  split; [exact Hfind|]. exact (Hrun eq_refl eq_refl).
Defined.

Lemma add_errors_appends_per_field_witness :
  NoDup [("a", ["bad2"]); ("b", @nil string)].*1
  /\ holds_messages (_values revisited !! errors_field (pipeline false true))
     = true
  /\ exists item' (d' : gmap string (list string)),
       _add_errors_to_item (pipeline false true)
         [("a", ["bad2"]); ("b", [])] {| item_obj := revisited; log := [] |}
         = (Return tt, {| item_obj := item'; log := [] |})
       /\ _values item' !! "_validation" = Some (VErrors d')
       /\ _values item' !! "title" = Some (VJson (JStr ""))
       /\ d' !! "a" = Some ["old"; "bad2"]
       /\ d' !! "b" = Some []
       /\ d' !! "c" = None.
Proof.
  assert (H : NoDup [("a", ["bad2"]); ("b", @nil string)].*1).
  { apply (bool_decide_unpack _). reflexivity. }
  split; [exact H|]. split; [reflexivity|].
  destruct (add_errors_appends_per_field (pipeline false true)
              [("a", ["bad2"]); ("b", [])] revisited [] H eq_refl)
    as (item' & d' & Hrun & _ & Hother & Hentry & Hin & Hnotin).
  exists item', d'. split; [exact Hrun|]. split; [exact Hentry|].
  split; [|split; [|split]].
  - rewrite (Hother "title") by done. reflexivity.
  - apply (Hin "a" ["bad2"]). apply elem_of_cons. now left.
  - apply (Hin "b" []). apply elem_of_cons. right. apply elem_of_cons. now left.
  - apply (Hnotin "c"). apply (bool_decide_unpack _). reflexivity.
Defined.

Lemma annotation_ignores_items_order_witness :
  NoDup [("a", ["bad2"]); ("b", ["bad3"])].*1
  /\ [("a", ["bad2"]); ("b", ["bad3"])] ≡ₚ [("b", ["bad3"]); ("a", ["bad2"])]
  /\ holds_messages (_values revisited !! errors_field (pipeline false true))
     = true
  /\ _add_errors_to_item (pipeline false true)
       [("a", ["bad2"]); ("b", ["bad3"])] {| item_obj := revisited; log := [] |}
     = _add_errors_to_item (pipeline false true)
         [("b", ["bad3"]); ("a", ["bad2"])] {| item_obj := revisited; log := [] |}.
Proof.
  assert (H : NoDup [("a", ["bad2"]); ("b", ["bad3"])].*1).
  { apply (bool_decide_unpack _). reflexivity. }
  assert (Hp : [("a", ["bad2"]); ("b", ["bad3"])]
               ≡ₚ [("b", ["bad3"]); ("a", ["bad2"])]) by apply perm_swap.
  assert (Hs : holds_messages
                 (_values revisited !! errors_field (pipeline false true))
               = true) by reflexivity.
  repeat (split; [assumption|]).
  exact (annotation_ignores_items_order _ _ _ revisited [] H Hp Hs).
Defined.

Lemma annotation_raises_on_a_foreign_value_witness :
  _values checked !! errors_field (pipeline false true)
    = Some (VJson (JStr "checked by hand"))
  /\ (forall kv, JStr "checked by hand" <> JObj kv)
  /\ _add_errors_to_item (pipeline false true) [("a", ["bad1"])]
       {| item_obj := checked; log := [] |}
     = (Raise TypeError, {| item_obj := checked; log := [] |}).
Proof.
  assert (H1 : _values checked !! errors_field (pipeline false true)
               = Some (VJson (JStr "checked by hand"))) by reflexivity.
  assert (H2 : forall kv, JStr "checked by hand" <> JObj kv) by discriminate.
  split; [exact H1|]. split; [exact H2|].
  rewrite (annotation_raises_on_a_foreign_value (pipeline false true)
             "a" ["bad1"] [] checked [] _ H1 H2).
  vm_compute. reflexivity.
Defined.

Lemma constructed_pipeline_switches_witness :
  exists self log',
    construct declared [] = (Return self, log')
    /\ drop_items_with_errors self = true
    /\ add_errors_to_items self = false
    /\ errors_field self = "_validation".
Proof.
  assert (H : exists self log', construct declared [] = (Return self, log')).
  { eexists _, _. vm_compute. reflexivity. }
  destruct H as (self & log' & H). exists self, log'. split; [exact H|].
  destruct (constructed_pipeline_switches sorted read_json_file load_object
              json_loads JSONSchemaValidator SchematicsValidator declared []
              log' self H)
    as (Hdrop & Hadd & _ & _ & Hfield).
  split; [exact Hdrop|]. split; [exact Hadd|].
  apply Hfield. now right.
Defined.

Lemma undeclared_pipeline_validates_nothing_witness :
  truthy (SPIDERMON_VALIDATION_SCHEMAS (settings PyNone (PyList []))) = false
  /\ truthy (SPIDERMON_VALIDATION_MODELS (settings PyNone (PyList []))) = false
  /\ exists self,
       construct (settings PyNone (PyList [])) [] = (Return self, [])
       /\ dispatch exported self product []
          = (Return product,
             {| item_obj := product; log := [] ++ preamble exported product |}).
Proof.
  repeat (split; [reflexivity|]).
  destruct (undeclared_pipeline_validates_nothing sorted read_json_file
              load_object json_loads JSONSchemaValidator SchematicsValidator
              (settings PyNone (PyList [])) [] exported eq_refl eq_refl)
    as (self & Hrun & _ & Hpass).
  exists self. split; [exact Hrun|]. apply Hpass.
Defined.

Lemma constructed_registry_is_sound_witness :
  exists self log' vs,
    construct declared [] = (Return self, log')
    /\ validators self !! "Product" = Some vs
    /\ Forall (fun v =>
                 (exists kv, v = JSONSchemaValidator (PyDict kv))
                 \/ (exists c, subclasses_Model c = true
                               /\ v = SchematicsValidator c)) vs.
Proof.
  assert (H : exists self log' vs,
    construct declared [] = (Return self, log')
    /\ validators self !! "Product" = Some vs).
  { eexists _, _, _. split; vm_compute; reflexivity. }
  destruct H as (self & log' & vs & Hrun & Hkey).
  exists self, log', vs. split; [exact Hrun|]. split; [exact Hkey|].
  exact (proj1 (constructed_registry_is_sound sorted read_json_file
                  load_object json_loads JSONSchemaValidator
                  SchematicsValidator declared [] log' self "Product" vs
                  Hrun Hkey)).
Defined.

Lemma constructed_dispatch_order_witness :
  exists self log',
    construct declared [] = (Return self, log')
    /\ find_validators self product
       = ([JSONSchemaValidator (PyDict [(PyStr "title", PyStr "product.json")])]
          ++ [])
         ++ ([] ++ [SchematicsValidator ProductModel]).
Proof.
  assert (H : exists self log', construct declared [] = (Return self, log')).
  { eexists _, _. vm_compute. reflexivity. }
  destruct H as (self & log' & Hrun). exists self, log'. split; [exact Hrun|].
  destruct (constructed_dispatch_order sorted read_json_file load_object
              json_loads JSONSchemaValidator SchematicsValidator declared []
              log' self product Hrun)
    as (ts & tm & us & um & Hts & Htm & Hus & Hum & Hfind).
  rewrite Hfind.
  vm_compute in Hts, Htm, Hus, Hum.
  injection Hts as <-. injection Htm as <-.
  injection Hus as <-. injection Hum as <-.
  vm_compute. reflexivity.
Defined.
